(** * symmy-task: ERP -> eshop product synchronisation

    A shallow embedding of [integrator/transformer.py],
    [integrator/eshop_client.py] and [integrator/tasks.py], and the
    properties of the delta-sync pipeline proved over it.

    Modelling conventions.
    - Python values coming out of [json.load] are the inductive [value];
      a [dict] is an association list in insertion order (keys of a JSON
      object are always [str]).
    - A Python [str] is a Rocq [string] holding its UTF-8 bytes, so that
      [s.encode('utf-8')] is the identity and ordering by code point is
      ordering by byte.
    - A Python [float] is the rational number it denotes ([Q]); the result
      of a floating-point operation is rounded to binary64 by [fl] (to
      nearest, ties to even, gradual underflow).  Overflow to infinity, NaN
      and the sign of zero are outside the model.
    - Exceptions are values of [exn]; fallible code returns [res]. *)

From Stdlib Require Import ZArith QArith Qround Qcanon Qpower List String Ascii Bool.
From Stdlib Require Import Lia Lqa.
From Stdlib Require Import DecimalString Permutation Sorted OrderedTypeEx.
Import ListNotations.

Local Open Scope Z_scope.

(** ** Exceptions and results *)

Inductive exn : Type :=
| TypeError
| ValueError
| AttributeError
| KeyError
| OverflowError
| ConnectionError
| IntegrityError
| HTTPError (status : Z) (body : string)
| RuntimeError (msg : string).

Inductive res (A : Type) : Type :=
| Ok (a : A)
| Raise (e : exn).

Arguments Ok {A} a.
Arguments Raise {A} e.

Definition bind {A B : Type} (m : res A) (k : A -> res B) : res B :=
  match m with
  | Ok a => k a
  | Raise e => Raise e
  end.

Declare Scope res_scope.
Delimit Scope res_scope with res.
Notation "x <- m ;; k" := (bind m (fun x => k))
  (at level 61, m at next level, right associativity) : res_scope.

(** ** Python values *)

#[warnings="-register-all"]
Inductive value : Type :=
| VNone
| VBool (b : bool)
| VInt (z : Z)
| VFloat (q : Q)
| VStr (s : string)
| VList (l : list value)
| VDict (d : list (string * value)).

Definition pydict : Type := list (string * value).

(** [d.get(k)]: the value stored under [k], if any. *)
Fixpoint dict_get (k : string) (d : pydict) : option value :=
  match d with
  | [] => None
  | (k', v) :: d' => if String.eqb k k' then Some v else dict_get k d'
  end.

(** [d.get(k, default)]. *)
Definition dict_get_default (k : string) (default : value) (d : pydict) : value :=
  match dict_get k d with
  | Some v => v
  | None => default
  end.

(** [d.get(k)] as Python sees it: an absent key reads as [None]. *)
Definition dict_get_none (k : string) (d : pydict) : value :=
  dict_get_default k VNone d.

(** [d.values()]. *)
Definition dict_values (d : pydict) : list value := map snd d.

(** Truth value of a Python object, as used by [x or y]. *)
Definition truthy (v : value) : bool :=
  match v with
  | VNone => false
  | VBool b => b
  | VInt z => negb (z =? 0)
  | VFloat q => negb (Qeq_bool q 0)
  | VStr s => negb (String.eqb s EmptyString)
  | VList l => match l with [] => false | _ => true end
  | VDict d => match d with [] => false | _ => true end
  end.

(** [x or y]. *)
Definition py_or (x y : value) : value := if truthy x then x else y.

(** The numeric reading of [bool], [int] and [float]; nothing else is
    ordered against a number or multiplied by one. *)
Definition as_number (v : value) : option Q :=
  match v with
  | VBool b => Some (if b then 1%Q else 0%Q)
  | VInt z => Some (inject_Z z)
  | VFloat q => Some q
  | _ => None
  end.

(** ** Text helpers for the builtin conversions *)

Definition is_space (c : ascii) : bool :=
  let n := N_of_ascii c in
  (((9 <=? n) && (n <=? 13)) || ((28 <=? n) && (n <=? 32)))%N.

Definition is_digit (c : ascii) : bool :=
  let n := N_of_ascii c in ((48 <=? n) && (n <=? 57))%N.

Definition digit_value (c : ascii) : Z := Z.of_N (N_of_ascii c) - 48.

Fixpoint lstrip (cs : list ascii) : list ascii :=
  match cs with
  | c :: cs' => if is_space c then lstrip cs' else cs
  | [] => []
  end.

(** [s.strip()] on the characters of [s]. *)
Definition strip (cs : list ascii) : list ascii :=
  rev (lstrip (rev (lstrip cs))).

(** A run of decimal digits in which single underscores may separate
    digits; [prev] tells whether the previous character was a digit. *)
Fixpoint digits_value (acc : Z) (prev : bool) (cs : list ascii) : option Z :=
  match cs with
  | [] => if prev then Some acc else None
  | c :: cs' =>
      if is_digit c then digits_value (10 * acc + digit_value c) true cs'
      else if Ascii.eqb c "_"%char
           then (if prev then digits_value acc false cs' else None)
           else None
  end.

(** An optional sign in front of the rest. *)
Definition split_sign (cs : list ascii) : bool * list ascii :=
  match cs with
  | c :: cs' =>
      if Ascii.eqb c "-"%char then (true, cs')
      else if Ascii.eqb c "+"%char then (false, cs')
      else (false, cs)
  | [] => (false, [])
  end.

(** [int(s)] for a [str]: surrounding blanks, a sign, decimal digits.
    (Blanks and digits are the ASCII ones; the other Unicode blanks and
    digits Python also takes are outside the model.) *)
Definition int_of_string (s : string) : option Z :=
  let (neg, body) := split_sign (strip (list_ascii_of_string s)) in
  match digits_value 0 false body with
  | Some n => Some (if neg then - n else n)
  | None => None
  end.

(** [int(x)] for a [float]: truncation towards zero. *)
Definition Qtruncate (q : Q) : Z := Z.quot (Qnum q) (Zpos (Qden q)).

(** The builtin [int(value)]. *)
Definition py_int (v : value) : res Z :=
  match v with
  | VNone => Raise TypeError
  | VBool b => Ok (if b then 1 else 0)
  | VInt z => Ok z
  | VFloat q => Ok (Qtruncate q)
  | VStr s => match int_of_string s with
              | Some z => Ok z
              | None => Raise ValueError
              end
  | VList _ => Raise TypeError
  | VDict _ => Raise TypeError
  end.

(** ** Binary64 arithmetic *)

(** Rounding to the nearest integer, ties to even. *)
Definition round_half_even (q : Q) : Z :=
  let f := Qfloor q in
  match Qcompare (q - inject_Z f) (1 # 2) with
  | Lt => f
  | Gt => f + 1
  | Eq => if Z.even f then f else f + 1
  end.

Definition pow2 (e : Z) : Q :=
  match e with
  | Zneg p => 1 # (2 ^ p)
  | _ => inject_Z (2 ^ e)
  end.

Definition pow10 (e : Z) : Q :=
  match e with
  | Zneg p => 1 # (10 ^ p)
  | _ => inject_Z (10 ^ e)
  end.

(** The exponent of the unit in the last place of a positive [q]: the
    significand [q / 2^e] lies in [2^52, 2^53), or [e] is the least
    exponent of the format. *)
Definition fl_exponent (q : Q) : Z :=
  let e0 := Z.log2 (Qnum q) - Z.log2 (Zpos (Qden q)) - 52 in
  Z.max (-1074)
        (match Qcompare q (pow2 (e0 + 52)) with Lt => e0 - 1 | _ => e0 end).

Definition fl_abs (q : Q) : Q :=
  let e := fl_exponent q in
  Qred (inject_Z (round_half_even (q / pow2 e)) * pow2 e).

(** The binary64 number nearest to [q]. *)
Definition fl (q : Q) : Q :=
  match Qcompare q 0 with
  | Eq => 0%Q
  | Gt => fl_abs q
  | Lt => Qopp (fl_abs (Qopp q))
  end.

(** The builtin [round(x, 2)] on a [float]: the two-decimal number nearest
    to [x], read back as a [float]. *)
Definition py_round2 (q : Q) : Q := fl (Qmake (round_half_even (q * 100)) 100).

(** *** [repr] of a [float]

    The shortest decimal that reads back as the same number, printed in
    positional notation when the decimal point falls in (-4, 16] and in
    exponent notation otherwise. *)

(** Position [k] of the decimal point of a positive [q]:
    [10^(k-1) <= q < 10^k]. *)
Fixpoint decpt_search (fuel : nat) (k : Z) (q : Q) : Z :=
  match fuel with
  | O => k
  | S fuel' =>
      match Qcompare q (pow10 (k - 1)) with
      | Lt => decpt_search fuel' (k - 1) q
      | _ => match Qcompare q (pow10 k) with
             | Lt => k
             | _ => decpt_search fuel' (k + 1) q
             end
      end
  end.

Definition decpt (q : Q) : Z :=
  decpt_search 8 ((Z.log2 (Qnum q) - Z.log2 (Zpos (Qden q))) * 30103 / 100000 + 1) q.

(** The [d] significant digits nearest to [q] and the position of the
    decimal point. *)
Definition to_digits (d : Z) (q : Q) : Z * Z :=
  let k := decpt q in
  let n := round_half_even (q / pow10 (k - d)) in
  if n =? 10 ^ d then (10 ^ (d - 1), k + 1) else (n, k).

Fixpoint shortest (fuel : nat) (d : Z) (q : Q) : Z * Z :=
  match fuel with
  | O => to_digits d q
  | S fuel' =>
      let '(n, k) := to_digits d q in
      if Qeq_bool (fl (inject_Z n * pow10 (k - d))) q then (n, k)
      else shortest fuel' (d + 1) q
  end.

Fixpoint strip_zeros (fuel : nat) (n : Z) : Z :=
  match fuel with
  | O => n
  | S f => if (n mod 10 =? 0) && negb (n =? 0) then strip_zeros f (n / 10) else n
  end.

(** [str(n)] for an [int]. *)
Definition int_repr (n : Z) : string := NilZero.string_of_int (Z.to_int n).

Fixpoint zeros (n : nat) : string :=
  match n with
  | O => EmptyString
  | S n' => String "0" (zeros n')
  end.

Definition repr_pos (q : Q) : string :=
  let '(n0, k) := shortest 16 1 q in
  let ds := int_repr (strip_zeros 17 n0) in
  let nd := Z.of_nat (String.length ds) in
  if (k <=? -4) || (16 <? k) then
    let e := k - 1 in
    let mant := match ds with
                | String c EmptyString => ds
                | String c rest => String c (String "." rest)
                | EmptyString => ds
                end in
    (mant ++ "e" ++ (if (e <? 0)%Z then "-" else "+")
          ++ (if (Z.abs e <? 10)%Z then "0" else "") ++ int_repr (Z.abs e))%string
  else if k <=? 0 then ("0." ++ zeros (Z.to_nat (- k)) ++ ds)%string
  else if nd <=? k then (ds ++ zeros (Z.to_nat (k - nd)) ++ ".0")%string
  else (substring 0 (Z.to_nat k) ds ++ "."
          ++ substring (Z.to_nat k) (Z.to_nat (nd - k)) ds)%string.

Definition float_repr (q : Q) : string :=
  match Qcompare q 0 with
  | Eq => "0.0"
  | Gt => repr_pos q
  | Lt => ("-" ++ repr_pos (Qopp q))%string
  end.

(** ** Dictionary keys

    [load_erp_data] uses the record identifier as the key of a [dict].
    Python hashes [None], numbers and strings; [1], [1.0] and [True] are
    one key; a [list] or a [dict] is unhashable. *)

Inductive pykey : Type :=
| KNone
| KNum (q : Qc)
| KStr (s : string).

Definition to_key (v : value) : res pykey :=
  match v with
  | VNone => Ok KNone
  | VStr s => Ok (KStr s)
  | VList _ => Raise TypeError
  | VDict _ => Raise TypeError
  | VBool b => Ok (KNum (Q2Qc (if b then 1 else 0)))
  | VInt z => Ok (KNum (Q2Qc (inject_Z z)))
  | VFloat q => Ok (KNum (Q2Qc q))
  end.

Definition pykey_eqb (a b : pykey) : bool :=
  match a, b with
  | KNone, KNone => true
  | KNum p, KNum q => Qeq_bool p q
  | KStr s, KStr t => String.eqb s t
  | _, _ => false
  end.

(** ** hashlib.sha256

    SHA-256 as FIPS 180-4 defines it, on 32-bit words held in [Z]. *)

Module SHA256.

Definition w32 (x : Z) : Z := x mod 2 ^ 32.
Definition add32 (a b : Z) : Z := w32 (a + b).
Definition rotr (n x : Z) : Z := Z.lor (Z.shiftr x n) (w32 (Z.shiftl x (32 - n))).
Definition not32 (x : Z) : Z := Z.lxor x 0xffffffff.

Definition Ch (x y z : Z) : Z := Z.lxor (Z.land x y) (Z.land (not32 x) z).
Definition Maj (x y z : Z) : Z :=
  Z.lxor (Z.lxor (Z.land x y) (Z.land x z)) (Z.land y z).
Definition Sigma0 (x : Z) : Z := Z.lxor (Z.lxor (rotr 2 x) (rotr 13 x)) (rotr 22 x).
Definition Sigma1 (x : Z) : Z := Z.lxor (Z.lxor (rotr 6 x) (rotr 11 x)) (rotr 25 x).
Definition sigma0 (x : Z) : Z := Z.lxor (Z.lxor (rotr 7 x) (rotr 18 x)) (Z.shiftr x 3).
Definition sigma1 (x : Z) : Z := Z.lxor (Z.lxor (rotr 17 x) (rotr 19 x)) (Z.shiftr x 10).

(** The first [n] primes, by trial division. *)
Fixpoint primes_from (fuel : nat) (n : nat) (candidate : Z) (found : list Z) : list Z :=
  match fuel, n with
  | S fuel', S n' =>
      if forallb (fun p => negb (candidate mod p =? 0)) found
      then primes_from fuel' n' (candidate + 1) (found ++ [candidate])
      else primes_from fuel' n (candidate + 1) found
  | _, _ => found
  end.

Definition primes (n : nat) : list Z := primes_from 400 n 2 [].

(** The integer cube root of a number below [2^(3 * bits)]. *)
Fixpoint cube_root (bits : nat) (n r : Z) : Z :=
  match bits with
  | O => r
  | S bits' =>
      let r' := r + 2 ^ Z.of_nat bits' in
      cube_root bits' n (if r' * r' * r' <=? n then r' else r)
  end.

(** The round constants: the first 32 bits of the fractional parts of the
    cube roots of the first 64 primes. *)
Definition K : list Z :=
  Eval vm_compute in map (fun p => w32 (cube_root 36 (p * 2 ^ 96) 0)) (primes 64).

(** The initial hash value: the same of the square roots of the first 8
    primes. *)
Definition H0 : list Z :=
  Eval vm_compute in map (fun p => w32 (Z.sqrt (p * 2 ^ 64))) (primes 8).

(** [w[i]]. *)
Definition at_ (i : nat) (w : list Z) : Z := nth i w 0.

(** Next word of the message schedule from the sixteen before it. *)
Definition next_word (w : list Z) : Z :=
  add32 (add32 (sigma1 (at_ 14 w)) (at_ 9 w)) (add32 (sigma0 (at_ 1 w)) (at_ 0 w)).

Record regs : Type := Regs { ra : Z; rb : Z; rc : Z; rd : Z; re : Z; rf : Z; rg : Z; rh : Z }.

Definition round (s : regs) (k w : Z) : regs :=
  let t1 := add32 (add32 (add32 (rh s) (Sigma1 (re s))) (add32 (Ch (re s) (rf s) (rg s)) k)) w in
  let t2 := add32 (Sigma0 (ra s)) (Maj (ra s) (rb s) (rc s)) in
  Regs (add32 t1 t2) (ra s) (rb s) (rc s) (add32 (rd s) t1) (re s) (rf s) (rg s).

Fixpoint rounds (ks : list Z) (w : list Z) (s : regs) : regs :=
  match ks with
  | [] => s
  | k :: ks' => rounds ks' (tl w ++ [next_word w]) (round s k (at_ 0 w))
  end.

Definition regs_of (h : list Z) : regs :=
  Regs (at_ 0 h) (at_ 1 h) (at_ 2 h) (at_ 3 h) (at_ 4 h) (at_ 5 h) (at_ 6 h) (at_ 7 h).

Definition compress (h : list Z) (block : list Z) : list Z :=
  let s := rounds K block (regs_of h) in
  [ add32 (at_ 0 h) (ra s); add32 (at_ 1 h) (rb s); add32 (at_ 2 h) (rc s);
    add32 (at_ 3 h) (rd s); add32 (at_ 4 h) (re s); add32 (at_ 5 h) (rf s);
    add32 (at_ 6 h) (rg s); add32 (at_ 7 h) (rh s) ].

(** Big-endian words of a byte string, four bytes each. *)
Fixpoint words (bs : list Z) : list Z :=
  match bs with
  | b0 :: b1 :: b2 :: b3 :: rest =>
      (((b0 * 256 + b1) * 256 + b2) * 256 + b3) :: words rest
  | _ => []
  end.

Definition be_bytes (n : nat) (x : Z) : list Z :=
  map (fun i => (Z.shiftr x (8 * Z.of_nat i)) mod 256) (rev (seq 0 n)).

Definition pad (msg : list Z) : list Z :=
  let len := Z.of_nat (List.length msg) in
  let zeros := Z.to_nat ((55 - len) mod 64) in
  msg ++ [0x80] ++ repeat 0 zeros ++ be_bytes 8 (8 * len).

Fixpoint blocks (fuel : nat) (ws : list Z) (h : list Z) : list Z :=
  match fuel with
  | O => h
  | S fuel' =>
      match ws with
      | [] => h
      | _ => blocks fuel' (skipn 16 ws) (compress h (firstn 16 ws))
      end
  end.

Definition digest (msg : list Z) : list Z :=
  let ws := words (pad msg) in
  blocks (List.length ws) ws H0.

Definition hex_digit (n : Z) : ascii :=
  nth (Z.to_nat (n mod 16)) (list_ascii_of_string "0123456789abcdef") "0"%char.

Definition hex_word (x : Z) : list ascii :=
  map (fun s => hex_digit (Z.shiftr x s)) [28; 24; 20; 16; 12; 8; 4; 0].

Definition bytes_of_string (s : string) : list Z :=
  map (fun c => Z.of_N (N_of_ascii c)) (list_ascii_of_string s).

(** [hashlib.sha256(data).hexdigest()]. *)
Definition hexdigest (data : string) : string :=
  string_of_list_ascii (flat_map hex_word (digest (bytes_of_string data))).

End SHA256.

(** ** json.dumps(obj, sort_keys=True, ensure_ascii=False) *)

Module Json.

Local Open Scope string_scope.

Definition hex4 (n : N) : string :=
  string_of_list_ascii
    (map (fun s => SHA256.hex_digit (Z.shiftr (Z.of_N n) s)) [12; 8; 4; 0]%Z).

(** One character of a string literal: the quote, the backslash and the
    control characters are escaped, everything else is kept. *)
Definition escape_char (c : ascii) : string :=
  let n := N_of_ascii c in
  if (n =? 34)%N then "\" ++ String c ""
  else if (n =? 92)%N then "\\"
  else if (n =? 8)%N then "\b"
  else if (n =? 12)%N then "\f"
  else if (n =? 10)%N then "\n"
  else if (n =? 13)%N then "\r"
  else if (n =? 9)%N then "\t"
  else if (n <? 32)%N then "\u" ++ hex4 n
  else String c "".

Fixpoint escape (s : string) : string :=
  match s with
  | EmptyString => EmptyString
  | String c s' => escape_char c ++ escape s'
  end.

Definition quote : string := String (ascii_of_N 34) "".

Definition encode_str (s : string) : string := quote ++ escape s ++ quote.

(** [sorted(items)] on rendered (key, text) pairs: insertion by key. *)
Fixpoint insert_item (x : string * string) (l : list (string * string))
  : list (string * string) :=
  match l with
  | [] => [x]
  | y :: l' => if String.leb (fst x) (fst y) then x :: l else y :: insert_item x l'
  end.

Fixpoint sort_items (l : list (string * string)) : list (string * string) :=
  match l with
  | [] => []
  | x :: l' => insert_item x (sort_items l')
  end.

Definition render_item (kv : string * string) : string :=
  encode_str (fst kv) ++ ": " ++ snd kv.

Fixpoint dumps (v : value) : string :=
  match v with
  | VNone => "null"
  | VBool true => "true"
  | VBool false => "false"
  | VInt z => int_repr z
  | VFloat q => float_repr q
  | VStr s => encode_str s
  | VList l => "[" ++ String.concat ", " (map dumps l) ++ "]"
  | VDict d =>
      "{" ++ String.concat ", "
               (map render_item
                    (sort_items (map (fun kv => (fst kv, dumps (snd kv))) d)))
          ++ "}"
  end.

End Json.

(** ** transformer.py *)

Module Transformer.

Local Open Scope string_scope.
Local Open Scope res_scope.

(** [VAT_RATE = 0.21]: the literal denotes the nearest [float]. *)
Definition VAT_RATE : Q := fl (21 # 100).

(** [sku in seen_skus]. *)
Definition key_in (k : pykey) (seen : list (pykey * pydict)) : bool :=
  existsb (fun e => pykey_eqb k (fst e)) seen.

(** The loop of [load_erp_data] over the parsed batch: [seen_skus] keeps
    insertion order, and a key already present is left untouched. *)
Fixpoint dedup_loop (raw_list : list pydict) (seen_skus : list (pykey * pydict))
  : res (list (pykey * pydict)) :=
  match raw_list with
  | [] => Ok seen_skus
  | item :: rest =>
      sku <- to_key (dict_get_none "id" item) ;;
      if key_in sku seen_skus
      then dedup_loop rest seen_skus
      else dedup_loop rest (seen_skus ++ [(sku, item)])
  end.

(** [load_erp_data], from the batch that [json.load] returned. *)
Definition load_erp_data (raw_list : list pydict) : res (list pydict) :=
  seen_skus <- dedup_loop raw_list [] ;;
  Ok (map snd seen_skus).

(** [except (TypeError, ValueError)] around [int(value)]. *)
Definition _parse_stock_value (v : value) : res Z :=
  match py_int v with
  | Ok z => Ok z
  | Raise TypeError => Ok 0%Z
  | Raise ValueError => Ok 0%Z
  | Raise e => Raise e
  end.

(** [sum(_parse_stock_value(v) for v in vs)]. *)
Fixpoint sum_stock (acc : Z) (vs : list value) : res Z :=
  match vs with
  | [] => Ok acc
  | v :: vs' => n <- _parse_stock_value v ;; sum_stock (acc + n) vs'
  end.

(** [price_excl < 0]. *)
Definition lt_zero (v : value) : res bool :=
  match as_number v with
  | Some q => Ok (match Qcompare q 0 with Lt => true | _ => false end)
  | None => Raise TypeError
  end.

(** [x.values()] / [x.get(k)] exist on a [dict] only. *)
Definition values_of (v : value) : res (list value) :=
  match v with
  | VDict d => Ok (dict_values d)
  | _ => Raise AttributeError
  end.

Definition get_of (k : string) (v : value) : res value :=
  match v with
  | VDict d => Ok (dict_get_none k d)
  | _ => Raise AttributeError
  end.

(** [price_excl * (1 + VAT_RATE)]. *)
Definition with_vat (v : value) : res Q :=
  match as_number v with
  | Some q => Ok (fl (fl q * fl (1 + VAT_RATE)))
  | None => Raise TypeError
  end.

Definition transform_product (raw : pydict) : res (option pydict) :=
  let sku := dict_get_default "id" (VStr "<unknown>") raw in
  let price_excl := dict_get_none "price_vat_excl" raw in
  match price_excl with
  | VNone => Ok None
  | _ =>
      negative <- lt_zero price_excl ;;
      if (negative : bool) then Ok None
      else
        stocks <- values_of (py_or (dict_get_none "stocks" raw) (VDict [])) ;;
        total_stock <- sum_stock 0 stocks ;;
        color0 <- get_of "color" (py_or (dict_get_none "attributes" raw) (VDict [])) ;;
        let color := py_or color0 (VStr "N/A") in
        price <- with_vat price_excl ;;
        Ok (Some [ ("sku", sku);
                   ("title", dict_get_default "title" (VStr "") raw);
                   ("price", VFloat (py_round2 price));
                   ("stock", VInt total_stock);
                   ("color", color) ])
  end.

(** [compute_hash]: the text is already UTF-8. *)
Definition compute_hash (product : pydict) : string :=
  let serialized := Json.dumps (VDict product) in
  SHA256.hexdigest serialized.

(** The loop of [load_and_transform]. *)
Fixpoint transform_all (raw_products : list pydict) (result : list pydict)
  : res (list pydict) :=
  match raw_products with
  | [] => Ok result
  | raw :: rest =>
      transformed <- transform_product raw ;;
      match transformed with
      | Some p => transform_all rest (result ++ [p])
      | None => transform_all rest result
      end
  end.

Definition load_and_transform (raw_list : list pydict) : res (list pydict) :=
  raw_products <- load_erp_data raw_list ;;
  transform_all raw_products [].

End Transformer.

(** ** The builtin [float(s)] on a [str]

    A [float] read from text may be an infinity or NaN; these are kept
    apart from the finite values.  A decimal too large for binary64
    reads as an infinity. *)

Inductive pyfloat : Type :=
| Fin (q : Q)
| Inf (negative : bool)
| NaN.

Definition lower_char (c : ascii) : ascii :=
  let n := N_of_ascii c in
  if ((65 <=? n) && (n <=? 90))%N then ascii_of_N (n + 32) else c.

Definition lower (s : string) : string :=
  string_of_list_ascii (map lower_char (list_ascii_of_string s)).

(** A run of digits with single underscores between digits: its value,
    the number of digits and what follows; [None] for a trailing
    underscore. *)
Fixpoint scan_digits (acc : Z) (n : nat) (prev : bool) (cs : list ascii)
  : option (Z * nat * list ascii) :=
  match cs with
  | c :: cs' =>
      if is_digit c then scan_digits (10 * acc + digit_value c) (S n) true cs'
      else if Ascii.eqb c "_"%char && prev
           then match cs' with
                | d :: _ => if is_digit d then scan_digits acc n false cs' else None
                | [] => None
                end
           else Some (acc, n, cs)
  | [] => Some (acc, n, [])
  end.

(** The exponent part, if any: [e], a sign, digits. *)
Definition scan_exponent (cs : list ascii) : option Z :=
  match cs with
  | [] => Some 0
  | c :: cs' =>
      if Ascii.eqb (lower_char c) "e"%char then
        let (neg, body) := split_sign cs' in
        match scan_digits 0 0 false body with
        | Some (e, S _, []) => Some (if neg then - e else e)
        | _ => None
        end
      else None
  end.

Definition scan_decimal (cs : list ascii) : option Q :=
  match scan_digits 0 0 false cs with
  | Some (ip, ni, rest) =>
      let after_point :=
        match rest with
        | c :: rest' =>
            if Ascii.eqb c "."%char then scan_digits 0 0 false rest'
            else Some (0, O, rest)
        | [] => Some (0, O, [])
        end in
      match after_point with
      | Some (fp, nf, rest2) =>
          match (ni + nf)%nat, scan_exponent rest2 with
          | S _, Some e =>
              Some (inject_Z (ip * 10 ^ Z.of_nat nf + fp) * pow10 (e - Z.of_nat nf))%Q
          | _, _ => None
          end
      | None => None
      end
  | None => None
  end.

Definition float_of_string (s : string) : option pyfloat :=
  let (neg, body) := split_sign (strip (list_ascii_of_string s)) in
  let word := lower (string_of_list_ascii body) in
  if String.eqb word "inf" || String.eqb word "infinity" then Some (Inf neg)
  else if String.eqb word "nan" then Some NaN
  else match scan_decimal body with
       | Some q =>
           let x := fl q in
           if Qle_bool (pow2 1024) x then Some (Inf neg)
           else Some (Fin (if neg then Qopp x else x))
       | None => None
       end.

(** [str(x)], as an f-string or a [CharField] applies it.  The [repr] of
    a [list] or [dict] is not modelled: such a value is never an
    identifier that went through [load_erp_data]. *)
Definition py_str (v : value) : option string :=
  match v with
  | VNone => Some "None"%string
  | VBool true => Some "True"%string
  | VBool false => Some "False"%string
  | VInt z => Some (int_repr z)
  | VFloat q => Some (float_repr q)
  | VStr s => Some s
  | VList _ => None
  | VDict _ => None
  end.

(** ** The world the client and the task run in

    The monotonic clock, the remote service (a script of the exchanges it
    will answer with, in order), the trace of what the code asked of the
    outside, the rate limiter of the current client and the table of
    [ProductSyncState] rows.  [clock] is what [time.monotonic()] reads;
    an exchange takes its latency, a sleep exactly the time asked for. *)

Record response : Type := Response {
  status_code : Z;
  headers : list (string * string);
  text : string
}.

Inductive exchange : Type :=
| Reply (latency : Q) (r : response)
| Failure (latency : Q) (e : exn).

Inductive site : Type := AtLimiter | AtBackoff.

Inductive event : Type :=
| Sleep (s : site) (d : pyfloat)
| Request (method url api_key : string) (json : pydict).

Record RateLimiter : Type := MkRateLimiter {
  _rate : Z;
  _tokens : Z;
  _window_start : option Q
}.

(** models.py: one row per [sku]. *)
Record ProductSyncState : Type := MkState {
  content_hash : string;
  last_synced_at : Q;
  synced_as_new : bool
}.

Record world : Type := World {
  clock : Q;
  script : list exchange;
  trace : list event;
  limiter : RateLimiter;
  db : list (string * ProductSyncState)
}.

Definition set_clock (t : Q) (w : world) : world :=
  World t (script w) (trace w) (limiter w) (db w).
Definition set_script (s : list exchange) (w : world) : world :=
  World (clock w) s (trace w) (limiter w) (db w).
Definition log (e : event) (w : world) : world :=
  World (clock w) (script w) (trace w ++ [e]) (limiter w) (db w).
Definition set_limiter (l : RateLimiter) (w : world) : world :=
  World (clock w) (script w) (trace w) l (db w).
Definition set_db (d : list (string * ProductSyncState)) (w : world) : world :=
  World (clock w) (script w) (trace w) (limiter w) d.

(** Computations that read and change the world and may raise. *)
Definition M (A : Type) : Type := world -> res A * world.

Definition ret {A : Type} (a : A) : M A := fun w => (Ok a, w).
Definition raise {A : Type} (e : exn) : M A := fun w => (Raise e, w).
Definition bindM {A B : Type} (m : M A) (k : A -> M B) : M B :=
  fun w => match m w with
           | (Ok a, w') => k a w'
           | (Raise e, w') => (Raise e, w')
           end.

Declare Scope M_scope.
Delimit Scope M_scope with M.
Notation "x <- m ;; k" := (bindM m (fun x => k))
  (at level 61, m at next level, right associativity) : M_scope.
Notation "m ;; k" := (bindM m (fun _ => k))
  (at level 61, right associativity) : M_scope.

Definition is_negative (q : Q) : bool :=
  match Qcompare q 0 with Lt => true | _ => false end.

Definition is_positive (q : Q) : bool :=
  match Qcompare q 0 with Gt => true | _ => false end.

(** [time.sleep(d)], called from [s]: the call is traced; a NaN or
    negative duration raises [ValueError], an infinite one
    [OverflowError]; otherwise the clock moves on by [d].  (A finite
    duration beyond the range of the timer, some 292 years, is outside
    the model.) *)
Definition sleep (s : site) (d : pyfloat) : M unit := fun w =>
  let w' := log (Sleep s d) w in
  match d with
  | NaN => (Raise ValueError, w')
  | Inf _ => (Raise OverflowError, w')
  | Fin q =>
      if is_negative q then (Raise ValueError, w')
      else (Ok tt, set_clock (clock w' + q)%Q w')
  end.

(** ** eshop_client.py *)

Module EshopClient.

Local Open Scope string_scope.
Local Open Scope Z_scope.
Local Open Scope M_scope.

Definition MAX_RETRIES : nat := 3.
Definition RATE_LIMIT : Z := 5.

(** [RateLimiter.__init__]. *)
Definition RateLimiter_init (rate : Z) : RateLimiter :=
  MkRateLimiter rate rate None.

(** Has the current window run out, or is there none yet? *)
Definition window_expired (now : Q) (l : RateLimiter) : bool :=
  match _window_start l with
  | None => true
  | Some start => Qle_bool 1 (fl (now - start))
  end.

(** [RateLimiter.acquire], on the limiter of the world.  The lock makes
    the whole body one step with respect to other callers. *)
Definition acquire : M unit := fun w =>
  let now := clock w in
  let l := limiter w in
  let l1 := if window_expired now l
            then MkRateLimiter (_rate l) (_rate l) (Some now)
            else l in
  if 0 <? _tokens l1 then
    (Ok tt, set_limiter (MkRateLimiter (_rate l1) (_tokens l1 - 1) (_window_start l1)) w)
  else
    let start := match _window_start l1 with Some s => s | None => now end in
    let wait := fl (1 - fl (now - start)) in
    let w1 := set_limiter l1 w in
    match (if is_positive wait then sleep AtLimiter (Fin wait) w1 else (Ok tt, w1)) with
    | (Ok _, w2) =>
        (Ok tt, set_limiter (MkRateLimiter (_rate l1) (_rate l1 - 1) (Some (clock w2))) w2)
    | (Raise e, w2) => (Raise e, w2)
    end.

Record client : Type := Client {
  _base_url : string;
  _api_key : string
}.

(** [s.rstrip('/')]. *)
Definition rstrip_slash (s : string) : string :=
  let fix drop (cs : list ascii) : list ascii :=
    match cs with
    | c :: cs' => if Ascii.eqb c "/"%char then drop cs' else cs
    | [] => []
    end in
  string_of_list_ascii (rev (drop (rev (list_ascii_of_string s)))).

(** [EshopClient.__init__]: a client comes with a full rate limiter of
    its own. *)
Definition init (ESHOP_API_BASE_URL ESHOP_API_KEY : string) : M client := fun w =>
  (Ok (Client (rstrip_slash ESHOP_API_BASE_URL) ESHOP_API_KEY),
   set_limiter (RateLimiter_init RATE_LIMIT) w).

(** [self._session.request(method, url, json=...)]: the next exchange of
    the script; a service that has nothing more to say is unreachable. *)
Definition session_request (c : client) (method url : string) (payload : pydict)
  : M response := fun w =>
  let w' := log (Request method url (_api_key c) payload) w in
  match script w' with
  | [] => (Raise ConnectionError, w')
  | Reply latency r :: rest =>
      (Ok r, set_clock (clock w' + latency)%Q (set_script rest w'))
  | Failure latency e :: rest =>
      (Raise e, set_clock (clock w' + latency)%Q (set_script rest w'))
  end.

(** [response.headers.get(name)]: header names compare without case. *)
Fixpoint header_get (name : string) (hs : list (string * string)) : option string :=
  match hs with
  | [] => None
  | (k, v) :: hs' =>
      if String.eqb (lower k) (lower name) then Some v else header_get name hs'
  end.

Definition _parse_retry_after (r : response) : option pyfloat :=
  match header_get "Retry-After" (headers r) with
  | None => None
  | Some header => float_of_string header
  end.

(** [response.raise_for_status()]. *)
Definition raise_for_status (r : response) : M unit :=
  if (400 <=? status_code r) && (status_code r <? 600)
  then raise (HTTPError (status_code r) (text r))
  else ret tt.

Definition rate_limit_message (method url : string) : string :=
  "API request " ++ method ++ " " ++ url ++ " failed after "
    ++ int_repr (Z.of_nat MAX_RETRIES) ++ " retries due to rate limiting.".

(** The loop of [_request_with_retry] with [attempts] iterations left. *)
Fixpoint retry_loop (attempts : nat) (backoff : Q) (c : client)
    (method url : string) (payload : pydict) : M response :=
  match attempts with
  | O => raise (RuntimeError (rate_limit_message method url))
  | S attempts' =>
      acquire ;;
      r <- session_request c method url payload ;;
      if status_code r =? 429 then
        let wait := match _parse_retry_after r with
                    | Some retry_after => retry_after
                    | None => Fin backoff
                    end in
        sleep AtBackoff wait ;;
        retry_loop attempts' (fl (backoff * 2)) c method url payload
      else
        raise_for_status r ;;
        ret r
  end.

Definition _request_with_retry (c : client) (method url : string) (payload : pydict)
  : M response :=
  retry_loop MAX_RETRIES 1 c method url payload.

(** [product['sku']]. *)
Definition product_sku (product : pydict) : M value :=
  match dict_get "sku" product with
  | Some v => ret v
  | None => raise KeyError
  end.

Definition send_product (c : client) (product : pydict) (is_new : bool) : M response :=
  sku <- product_sku product ;;
  if is_new then
    _request_with_retry c "POST" (_base_url c ++ "/products/") product
  else
    match py_str sku with
    | Some s => _request_with_retry c "PATCH" (_base_url c ++ "/products/" ++ s ++ "/") product
    | None => raise TypeError
    end.

End EshopClient.

(** ** tasks.py *)

Module Tasks.

Local Open Scope string_scope.
Local Open Scope Z_scope.
Local Open Scope M_scope.

(** The Django settings the task reads; [ERP_DATA] is the batch that
    [json.load] returns for the file at [ERP_DATA_PATH]. *)
Record settings : Type := Settings {
  ESHOP_API_BASE_URL : string;
  ESHOP_API_KEY : string;
  ERP_DATA : list pydict
}.

Record summary : Type := Summary {
  sent : Z;
  skipped : Z;
  errors : Z
}.

(** The table, keyed by the text of the [sku] column. *)
Fixpoint table_get (k : string) (t : list (string * ProductSyncState))
  : option ProductSyncState :=
  match t with
  | [] => None
  | (k', s) :: t' => if String.eqb k k' then Some s else table_get k t'
  end.

Fixpoint table_put (k : string) (s : ProductSyncState)
    (t : list (string * ProductSyncState)) : list (string * ProductSyncState) :=
  match t with
  | [] => [(k, s)]
  | (k', s') :: t' =>
      if String.eqb k k' then (k, s) :: t' else (k', s') :: table_put k s t'
  end.

(** [ProductSyncState.objects.get(sku=sku)] with [DoesNotExist] caught:
    a [CharField] is looked up by [str(sku)], and no row has a null
    [sku]. *)
Definition get_state (sku : value) : M (option ProductSyncState) := fun w =>
  match sku with
  | VNone => (Ok None, w)
  | _ => match py_str sku with
         | Some k => (Ok (table_get k (db w)), w)
         | None => (Raise TypeError, w)
         end
  end.

(** [state.save()] after the assignments: the row of [sku] now holds the
    new hash and flag, stamped with the current time; the column does
    not take a null. *)
Definition save_state (sku : value) (new_hash : string) (is_new : bool) : M unit :=
  fun w =>
  match sku with
  | VNone => (Raise IntegrityError, w)
  | _ => match py_str sku with
         | Some k =>
             (Ok tt, set_db (table_put k (MkState new_hash (clock w) is_new) (db w)) w)
         | None => (Raise TypeError, w)
         end
  end.

Inductive outcome : Type := Sent | Skipped.

(** The body of the [try] for one product. *)
Definition try_sync (c : EshopClient.client) (sku : value) (product : pydict)
    (new_hash : string) : M outcome :=
  state <- get_state sku ;;
  let is_new := match state with Some _ => false | None => true end in
  let unchanged := match state with
                   | Some st => String.eqb (content_hash st) new_hash
                   | None => false
                   end in
  if unchanged then ret Skipped
  else
    EshopClient.send_product c product is_new ;;
    save_state sku new_hash is_new ;;
    ret Sent.

(** One iteration of the loop: [except Exception] turns any failure of
    the body into one more error. *)
Definition sync_one (c : EshopClient.client) (product : pydict) (n : summary)
  : M summary :=
  sku <- EshopClient.product_sku product ;;
  let new_hash := Transformer.compute_hash product in
  fun w =>
    match try_sync c sku product new_hash w with
    | (Ok Skipped, w') => (Ok (Summary (sent n) (skipped n + 1) (errors n)), w')
    | (Ok Sent, w') => (Ok (Summary (sent n + 1) (skipped n) (errors n)), w')
    | (Raise _, w') => (Ok (Summary (sent n) (skipped n) (errors n + 1)), w')
    end.

Fixpoint sync_loop (c : EshopClient.client) (products : list pydict) (n : summary)
  : M summary :=
  match products with
  | [] => ret n
  | product :: rest => n' <- sync_one c product n ;; sync_loop c rest n'
  end.

Definition lift {A : Type} (r : res A) : M A := fun w => (r, w).

Definition sync_products_task (s : settings) : M summary :=
  products <- lift (Transformer.load_and_transform (ERP_DATA s)) ;;
  client <- EshopClient.init (ESHOP_API_BASE_URL s) (ESHOP_API_KEY s) ;;
  sync_loop client products (Summary 0 0 0).

End Tasks.

(** * Vocabulary of the properties *)

Local Open Scope string_scope.
Local Open Scope Z_scope.

(** ** Products and their stock *)

(** The quantity a location contributes to the stock: what [int] makes of
    it, and 0 when [int] rejects it. *)
Definition quantity (v : value) : Z :=
  match py_int v with
  | Ok z => z
  | Raise _ => 0
  end.

(** [sum] of a list of integers. *)
Definition total (zs : list Z) : Z := fold_right Z.add 0 zs.



(** ** Identifiers and duplicates *)

(** The identifier of a raw record as [load_erp_data] keys it. *)
Definition record_key (r : pydict) : res pykey := to_key (dict_get_none "id" r).

(** Does the record carry identifier [k]? *)
Definition has_key (k : pykey) (r : pydict) : bool :=
  match record_key r with
  | Ok k' => pykey_eqb k' k
  | Raise _ => false
  end.


(** [l] is [l'] with some elements left out, the others in their order. *)
Inductive subseq {A : Type} : list A -> list A -> Prop :=
| subseq_nil : subseq [] []
| subseq_skip (x : A) (l l' : list A) : subseq l l' -> subseq l (x :: l')
| subseq_keep (x : A) (l l' : list A) : subseq l l' -> subseq (x :: l) (x :: l').



(** Two records sharing an identifier, the first without a price. *)
Definition dup_bad : pydict :=
  [ ("id", VStr "SKU-DUP"); ("title", VStr "Bad"); ("price_vat_excl", VNone);
    ("stocks", VDict []); ("attributes", VDict []) ].

Definition dup_good : pydict :=
  [ ("id", VStr "SKU-DUP"); ("title", VStr "Good"); ("price_vat_excl", VInt 100);
    ("stocks", VDict []); ("attributes", VDict []) ].

(** ** Fingerprints *)

(** The field names of a dict, in insertion order. *)
Definition keys {V : Type} (d : list (string * V)) : list string := map fst d.

(** A lower-case hexadecimal digit. *)
Definition is_hex (c : ascii) : Prop :=
  In c (list_ascii_of_string "0123456789abcdef").

(** The order [json.dumps] puts the fields in. *)
Definition key_le (a b : string * string) : Prop := String.leb (fst a) (fst b) = true.

(** The product of the tests, and the same fields entered backwards. *)
Definition kavovar : pydict :=
  [ ("sku", VStr "SKU-001"); ("title", VStr "A"); ("price", VFloat 121);
    ("stock", VInt 5); ("color", VStr "N/A") ].

Definition kavovar_reversed : pydict :=
  [ ("color", VStr "N/A"); ("stock", VInt 5); ("price", VFloat 121);
    ("title", VStr "A"); ("sku", VStr "SKU-001") ].

(** ** Windows of the rate limiter *)

(** A limiter of rate [r] whose token count is within bounds. *)
Definition tokens_in_range (r : Z) (l : RateLimiter) : Prop :=
  _rate l = r /\ 0 <= _tokens l <= r.

(** Calls of [acquire] one after the other, each made [d] time units
    after the previous one returned. *)
Fixpoint acquire_each (delays : list Q) : M unit :=
  match delays with
  | [] => ret tt
  | d :: ds =>
      bindM (fun w => EshopClient.acquire (set_clock (clock w + d)%Q w))
            (fun _ => acquire_each ds)
  end.

(** Calls made at the given delays from [now] on, without suspension in
    between, all find the window opened at [start] still running. *)
Fixpoint within_window (start now : Q) (delays : list Q) : Prop :=
  match delays with
  | [] => True
  | d :: ds =>
      Qle_bool 1 (fl (now + d - start)) = false /\
      within_window start (now + d)%Q ds
  end.

(** ** Attempts and waits of the retry loop *)

(** The network attempts a trace records. *)
Definition is_request (e : event) : bool :=
  match e with
  | Request _ _ _ _ => true
  | Sleep _ _ => false
  end.

Definition attempts (tr : list event) : nat := List.length (filter is_request tr).

(** The waits the retry loop asked for, in order. *)
Definition backoff_waits (tr : list event) : list pyfloat :=
  flat_map (fun e => match e with
                     | Sleep AtBackoff d => [d]
                     | _ => []
                     end) tr.

(** An event of the rate limiter only. *)
Definition limiter_event (e : event) : Prop := exists d, e = Sleep AtLimiter d.

(** The computed backoff after [k] throttled attempts: 1.0, doubled each
    time. *)
Definition backoff_after (k : nat) : Q := inject_Z (2 ^ Z.of_nat k).

(** The wait a throttling answer calls for: the value of its Retry-After
    header when there is one and it reads as a number, the computed
    backoff otherwise. *)
Definition expected_wait (k : nat) (r : response) : pyfloat :=
  match EshopClient.header_get "Retry-After" (headers r) with
  | Some header =>
      match float_of_string header with
      | Some seconds => seconds
      | None => Fin (backoff_after k)
      end
  | None => Fin (backoff_after k)
  end.

(** A duration [time.sleep] accepts. *)
Definition sleepable (d : pyfloat) : bool :=
  match d with
  | Fin q => negb (is_negative q)
  | _ => false
  end.

(** The waits called for by the answers of the service to at most [n]
    attempts, [k] throttled attempts having gone before: one per 429, up
    to the first answer that is not a 429 or the first wait that cannot
    be slept. *)
Fixpoint expected_waits (n k : nat) (answers : list exchange) : list pyfloat :=
  match n, answers with
  | S n', Reply _ r :: rest =>
      if status_code r =? 429 then
        expected_wait k r
          :: (if sleepable (expected_wait k r)
              then expected_waits n' (S k) rest
              else [])
      else []
  | _, _ => []
  end.

(** Answers of the service used in the examples. *)
Definition throttled : exchange := Reply 0 (Response 429 [] "").
Definition throttled_for (seconds : string) : exchange :=
  Reply 0 (Response 429 [("Retry-After", seconds)] "").
Definition created : exchange := Reply 0 (Response 201 [] "{}").
Definition server_error : exchange := Reply 0 (Response 500 [] "").

Definition shop : EshopClient.client :=
  EshopClient.Client "https://api.fake-eshop.cz/v1" "symma-secret-token".

(** A world at time 0 with a fresh limiter and an empty table, the
    service answering as scripted. *)
Definition fresh_world (answers : list exchange) : world :=
  World 0 answers [] (EshopClient.RateLimiter_init EshopClient.RATE_LIMIT) [].

(** The waits of the loop as the code computes them: [b] is the current
    value of [backoff]. *)
Fixpoint waits_from (n : nat) (b : Q) (answers : list exchange) : list pyfloat :=
  match n, answers with
  | S n', Reply _ r :: rest =>
      if status_code r =? 429 then
        let wait := match EshopClient._parse_retry_after r with
                    | Some retry_after => retry_after
                    | None => Fin b
                    end in
        wait :: (if sleepable wait then waits_from n' (fl (b * 2)) rest else [])
      else []
  | _, _ => []
  end.

(** ** Runs of the task *)

(** A product that carries a [sku]. *)
Definition has_sku (p : pydict) : Prop := exists v, dict_get "sku" p = Some v.

(** The key of the row of a product in the table, if it can have one. *)
Definition db_key (p : pydict) : option string :=
  match dict_get "sku" p with
  | Some VNone => None
  | Some sku => py_str sku
  | None => None
  end.

(** Does the stored state carry this hash already? *)
Definition unchanged (state : option ProductSyncState) (new_hash : string) : bool :=
  match state with
  | Some st => String.eqb (content_hash st) new_hash
  | None => false
  end.



(** The records a summary accounts for. *)
Definition processed (n : Tasks.summary) : Z :=
  Tasks.sent n + Tasks.skipped n + Tasks.errors n.

(** Two valid records, the batch of the tests. *)
Definition espresso : pydict :=
  [ ("id", VStr "SKU-001"); ("title", VStr "Espresso");
    ("price_vat_excl", VFloat 100);
    ("stocks", VDict [("praha", VInt 5); ("brno", VInt 3)]);
    ("attributes", VDict [("color", VStr "silver")]) ].

Definition mlynek : pydict :=
  [ ("id", VStr "SKU-003"); ("title", VStr "Mlynek");
    ("price_vat_excl", VFloat 50);
    ("stocks", VDict [("praha", VInt 2)]);
    ("attributes", VNone) ].

Definition two_records : Tasks.settings :=
  Tasks.Settings "https://api.fake-eshop.cz/v1" "symma-secret-token" [espresso; mlynek].

(** The world left by a first run in which the first record was created
    and the second was refused, the service now refusing again. *)
Definition second_run_world : world :=
  set_script [server_error]
    (snd (Tasks.sync_products_task two_records (fresh_world [created; server_error]))).

(** A record without identifier next to one whose identifier is the text
    the transformer puts in for a missing one. *)
Definition nameless : pydict :=
  [ ("title", VStr "A"); ("price_vat_excl", VFloat 1);
    ("stocks", VDict []); ("attributes", VDict []) ].

Definition named_unknown : pydict :=
  [ ("id", VStr "<unknown>"); ("title", VStr "B"); ("price_vat_excl", VFloat 1);
    ("stocks", VDict []); ("attributes", VDict []) ].

Definition unknown_pair : Tasks.settings :=
  Tasks.Settings "https://api.fake-eshop.cz/v1" "symma-secret-token"
                 [nameless; named_unknown].

(** A row of the table holds the hash of the product. *)
Definition synced (t : list (string * ProductSyncState)) (p : pydict) : Prop :=
  exists k st,
    db_key p = Some k /\ Tasks.table_get k t = Some st /\
    content_hash st = Transformer.compute_hash p.

(** The products of the two records. *)
Definition two_products : list pydict :=
  Eval vm_compute in
    match Transformer.load_and_transform [espresso; mlynek] with
    | Ok products => products
    | Raise _ => []
    end.

(** ** More of the transformer *)

(** A value no [dict] takes as a key. *)
Definition unhashable (v : value) : Prop :=
  match v with
  | VList _ => True
  | VDict _ => True
  | _ => False
  end.

(** The products of the records that [transform_product] keeps, in the
    order of the records. *)
Definition kept_products (records : list pydict) : list pydict :=
  flat_map (fun r => match Transformer.transform_product r with
                     | Ok (Some p) => [p]
                     | _ => []
                     end) records.

(** ** More of the client *)

(** A 429 answer whose Retry-After header, if it has one that reads as a
    number, asks for a wait that can be slept. *)
Definition retry_after_ok (r : response) : bool :=
  match EshopClient._parse_retry_after r with
  | Some d => sleepable d
  | None => true
  end.

Definition throttles (x : exchange) : Prop :=
  exists latency r, x = Reply latency r /\ status_code r = 429 /\ retry_after_ok r = true.

(** Every request among the events is the request [req]. *)
Definition requests_are (req : event) (evs : list event) : Prop :=
  Forall (fun e => is_request e = true -> e = req) evs.

Definition ends_with_slash (s : string) : Prop := exists t, s = (t ++ "/")%string.

(** ** More of the task *)


(** Every row of the table holds a hash of 64 characters. *)
Definition hashes_fit (t : list (string * ProductSyncState)) : Prop :=
  forall k st, Tasks.table_get k t = Some st -> String.length (content_hash st) = 64%nat.

(** * Properties *)

(** ** Binary64 rounding keeps the sign *)

Lemma pow2_pos (e : Z) : (0 < pow2 e)%Q.
Proof.
  destruct e as [|p|p]; unfold pow2.
  - reflexivity.
  - change 0%Q with (inject_Z 0). rewrite <- Zlt_Qlt. apply Z.pow_pos_nonneg; lia.
  - reflexivity.
Qed.

Lemma round_half_even_nonneg (q : Q) : (0 <= q)%Q -> 0 <= round_half_even q.
Proof.
  intros H. unfold round_half_even.
  assert (Hf : 0 <= Qfloor q).
  { change 0 with (Qfloor 0). apply Qfloor_resp_le. exact H. }
  destruct (Qcompare _ _); [destruct (Z.even _)| |]; lia.
Qed.

Lemma fl_abs_nonneg (q : Q) : (0 <= q)%Q -> (0 <= fl_abs q)%Q.
Proof.
  intros H. unfold fl_abs. rewrite Qred_correct.
  apply Qmult_le_0_compat.
  - change 0%Q with (inject_Z 0). rewrite <- Zle_Qle.
    apply round_half_even_nonneg.
    apply Qle_shift_div_l; [apply pow2_pos|]. now rewrite Qmult_0_l.
  - apply Qlt_le_weak, pow2_pos.
Qed.

Lemma fl_nonneg (q : Q) : (0 <= q)%Q -> (0 <= fl q)%Q.
Proof.
  intros H. unfold fl. destruct (Qcompare q 0) eqn:E.
  - apply Qle_refl.
  - apply Qlt_alt in E. exfalso. apply (Qlt_not_le _ _ E H).
  - now apply fl_abs_nonneg.
Qed.


(** ** transform_product *)

Section TransformProduct.

Import Transformer.

Lemma _parse_stock_value_quantity (v : value) :
  _parse_stock_value v = Ok (quantity v).
Proof.
  unfold _parse_stock_value, quantity.
  destruct v; simpl; try reflexivity.
  destruct (int_of_string s); reflexivity.
Qed.

Lemma sum_stock_total (vs : list value) (acc : Z) :
  sum_stock acc vs = Ok (acc + total (map quantity vs)).
Proof.
  revert acc. induction vs as [|v vs IH]; intros acc; simpl.
  - f_equal. lia.
  - rewrite _parse_stock_value_quantity. simpl. rewrite IH. f_equal. lia.
Qed.







(** The cases of the tests of [transform_product]. *)
Example basic_transformation :
  transform_product
    [ ("id", VStr "SKU-001"); ("title", VStr "Kavovar");
      ("price_vat_excl", VFloat 100);
      ("stocks", VDict [("praha", VInt 3); ("brno", VInt 2)]);
      ("attributes", VDict [("color", VStr "red")]) ]
  = Ok (Some [ ("sku", VStr "SKU-001"); ("title", VStr "Kavovar");
               ("price", VFloat 121); ("stock", VInt 5); ("color", VStr "red") ]).
Proof. vm_compute. reflexivity. Qed.

Example non_numeric_stock_is_zero :
  transform_product
    [ ("id", VStr "SKU-008"); ("title", VStr "Filtry");
      ("price_vat_excl", VFloat 300);
      ("stocks", VDict [("praha", VStr "N/A")]);
      ("attributes", VDict [("color", VStr "")]) ]
  = Ok (Some [ ("sku", VStr "SKU-008"); ("title", VStr "Filtry");
               ("price", VFloat 363); ("stock", VInt 0); ("color", VStr "N/A") ]).
Proof. vm_compute. reflexivity. Qed.

Example null_price_dropped :
  transform_product [ ("id", VStr "SKU-004"); ("price_vat_excl", VNone) ] = Ok None.
Proof. reflexivity. Qed.

Example negative_price_dropped :
  transform_product [ ("id", VStr "SKU-002"); ("price_vat_excl", VFloat (-150)) ]
  = Ok None.
Proof. reflexivity. Qed.

Example price_rounded_to_two_decimals :
  float_repr (py_round2 (fl (fl (24801 # 2) * fl (1 + VAT_RATE)))) = "15004.6".
Proof. vm_compute. reflexivity. Qed.

End TransformProduct.

(** ** load_erp_data and load_and_transform *)

Lemma pykey_eqb_eq (a b : pykey) : pykey_eqb a b = true <-> a = b.
Proof.
  destruct a as [|p|s], b as [|q|t]; simpl; split; intros H;
    try reflexivity; try discriminate.
  - f_equal. apply Qc_is_canon. now apply Qeq_bool_iff.
  - injection H as ->. apply Qeq_bool_iff. reflexivity.
  - f_equal. now apply String.eqb_eq.
  - injection H as ->. apply String.eqb_refl.
Qed.

Lemma pykey_eqb_refl (a : pykey) : pykey_eqb a a = true.
Proof. now apply pykey_eqb_eq. Qed.

Lemma pykey_eqb_neq (a b : pykey) : pykey_eqb a b = false <-> a <> b.
Proof.
  rewrite <- pykey_eqb_eq. destruct (pykey_eqb a b); split; congruence.
Qed.

Section Dedup.
Import Transformer.

Lemma key_in_spec (k : pykey) (seen : list (pykey * pydict)) :
  key_in k seen = true <-> In k (map fst seen).
Proof.
  unfold key_in. rewrite existsb_exists, in_map_iff. split.
  - intros (e & He & Hk). apply pykey_eqb_eq in Hk. eauto.
  - intros (e & Hk & He). exists e. split; [assumption|]. apply pykey_eqb_eq. auto.
Qed.




(** What the loop adds to [seen]. *)
Lemma dedup_loop_grows (raw_list : list pydict) :
  forall seen out,
    dedup_loop raw_list seen = Ok out ->
    exists added,
      out = (seen ++ added)%list /\
      subseq (map snd added) raw_list /\
      (NoDup (map fst seen) -> NoDup (map fst out)) /\
      Forall (fun e => record_key (snd e) = Ok (fst e)) added /\
      (forall pre x post k,
          raw_list = (pre ++ x :: post)%list -> record_key x = Ok k ->
          Forall (fun r => has_key k r = false) pre ->
          key_in k seen = false -> In (k, x) added).
Proof.
  induction raw_list as [|item rest IH]; intros seen out H; simpl in H.
  - injection H as <-. exists []. rewrite app_nil_r. repeat split.
    + constructor.
    + auto.
    + constructor.
    + intros pre x post k Hsplit. destruct pre; discriminate.
  - destruct (to_key (dict_get_none "id" item)) as [k'|e] eqn:Ek; simpl in H; [|discriminate].
    destruct (key_in k' seen) eqn:Hin.
    + destruct (IH _ _ H) as (added & -> & Hsub & Hnd & Hkeys & Hfirst).
      exists added. repeat split; auto.
      * now constructor.
      * intros pre x post k Hsplit Hk Hpre Hseen.
        destruct pre as [|y pre]; simpl in Hsplit; injection Hsplit as -> ->.
        -- unfold record_key in Hk. rewrite Ek in Hk. injection Hk as ->. congruence.
        -- inversion Hpre; subst. eapply Hfirst; eauto.
    + destruct (IH _ _ H) as (added & -> & Hsub & Hnd & Hkeys & Hfirst).
      exists ((k', item) :: added). rewrite <- app_assoc. simpl.
      split; [reflexivity|]. split; [|split; [|split]].
      * simpl. now constructor.
      * intros Hs. rewrite <- app_assoc in Hnd. simpl in Hnd. apply Hnd.
        rewrite map_app. simpl.
        apply NoDup_app; [assumption| |].
        -- constructor; [intros []|constructor].
        -- intros a Ha [<-|[]]. apply key_in_spec in Ha. congruence.
      * constructor; [exact Ek | exact Hkeys].
      * intros pre x post k Hsplit Hk Hpre Hseen.
        destruct pre as [|y pre]; simpl in Hsplit; injection Hsplit as -> ->.
        -- unfold record_key in Hk. rewrite Ek in Hk. injection Hk as ->. now left.
        -- right. inversion Hpre as [|? ? Hy Hpre']; subst.
           eapply Hfirst; eauto.
           unfold key_in. rewrite existsb_app. fold (key_in k seen). rewrite Hseen. simpl.
           unfold has_key, record_key in Hy. rewrite Ek in Hy.
           rewrite orb_false_r.
           destruct (pykey_eqb k k') eqn:E; [|reflexivity].
           apply pykey_eqb_eq in E. subst. now rewrite pykey_eqb_refl in Hy.
Qed.







(** The duplicate whose first record has no price leaves nothing. *)
Example duplicate_after_invalid_first :
  load_and_transform [dup_bad; dup_good] = Ok [].
Proof. reflexivity. Qed.

End Dedup.

(** ** compute_hash *)

Section Fingerprint.
Import Json.

Lemma leb_trans (a b c : string) :
  String.leb a b = true -> String.leb b c = true -> String.leb a c = true.
Proof.
  unfold String.leb.
  destruct (String.compare a b) eqn:Eab; try discriminate;
    destruct (String.compare b c) eqn:Ebc; try discriminate; intros _ _.
  - apply String_as_OT.cmp_eq in Eab, Ebc. subst.
    pose proof (proj2 (String_as_OT.cmp_eq c c) eq_refl) as H.
    unfold String_as_OT.cmp in H. now rewrite H.
  - apply String_as_OT.cmp_eq in Eab. subst. now rewrite Ebc.
  - apply String_as_OT.cmp_eq in Ebc. subst. now rewrite Eab.
  - apply String_as_OT.cmp_lt in Eab, Ebc.
    pose proof (String_as_OT.lt_trans _ _ _ Eab Ebc) as H.
    apply String_as_OT.cmp_lt in H. unfold String_as_OT.cmp in H. now rewrite H.
Qed.

Lemma insert_item_perm (x : string * string) (l : list (string * string)) :
  Permutation (insert_item x l) (x :: l).
Proof.
  induction l as [|y l IH]; simpl; [reflexivity|].
  destruct (String.leb (fst x) (fst y)); [reflexivity|].
  rewrite IH. apply perm_swap.
Qed.

Lemma sort_items_perm (l : list (string * string)) : Permutation (sort_items l) l.
Proof.
  induction l as [|x l IH]; simpl; [reflexivity|].
  rewrite insert_item_perm. now constructor.
Qed.

Lemma insert_item_sorted (x : string * string) (l : list (string * string)) :
  StronglySorted key_le l -> StronglySorted key_le (insert_item x l).
Proof.
  induction 1 as [|y l Hs IH Hall]; simpl.
  - repeat constructor.
  - destruct (String.leb (fst x) (fst y)) eqn:E.
    + constructor; [now constructor|].
      constructor; [exact E|].
      eapply Forall_impl; [|exact Hall].
      intros z Hz. unfold key_le in *. eapply leb_trans; eassumption.
    + constructor; [exact IH|].
      assert (Hyx : key_le y x).
      { unfold key_le. destruct (String.leb_total (fst x) (fst y)); congruence. }
      eapply Permutation_Forall; [symmetry; apply insert_item_perm|].
      now constructor.
Qed.

Lemma sort_items_sorted (l : list (string * string)) :
  StronglySorted key_le (sort_items l).
Proof.
  induction l; simpl; [constructor | now apply insert_item_sorted].
Qed.

Lemma sorted_unique (l1 : list (string * string)) :
  forall l2,
    StronglySorted key_le l1 -> StronglySorted key_le l2 ->
    NoDup (keys l1) -> Permutation l1 l2 -> l1 = l2.
Proof.
  induction l1 as [|a l1 IH]; intros l2 H1 H2 Hnd Hp.
  - now apply Permutation_nil in Hp.
  - destruct l2 as [|b l2]; [now apply Permutation_sym, Permutation_nil in Hp|].
    inversion H1 as [|? ? H1' Ha]; subst.
    inversion H2 as [|? ? H2' Hb]; subst.
    inversion Hnd as [|? ? Hna Hnd']; subst.
    assert (a = b) as <-.
    { assert (Hina : In a (b :: l2)) by (eapply Permutation_in; [exact Hp | now left]).
      assert (Hinb : In b (a :: l1))
        by (eapply Permutation_in; [symmetry; exact Hp | now left]).
      destruct Hina as [->|Hina]; [reflexivity|].
      destruct Hinb as [->|Hinb]; [reflexivity|].
      exfalso. apply Hna.
      rewrite Forall_forall in Ha, Hb.
      specialize (Ha _ Hinb). specialize (Hb _ Hina). unfold key_le in *.
      rewrite (String.leb_antisym _ _ Ha Hb).
      unfold keys. now apply in_map. }
    f_equal. apply IH; auto. eapply Permutation_cons_inv; eassumption.
Qed.

Lemma sort_items_permutation (l1 l2 : list (string * string)) :
  NoDup (keys l1) -> Permutation l1 l2 -> sort_items l1 = sort_items l2.
Proof.
  intros Hnd Hp. apply sorted_unique; try apply sort_items_sorted.
  - eapply Permutation_NoDup; [|exact Hnd].
    unfold keys. apply Permutation_map. symmetry. apply sort_items_perm.
  - rewrite sort_items_perm, Hp. symmetry. apply sort_items_perm.
Qed.

Lemma hex_digit_is_hex (n : Z) : is_hex (SHA256.hex_digit n).
Proof.
  unfold SHA256.hex_digit, is_hex.
  apply nth_In. simpl.
  assert (0 <= n mod 16 < 16) by (apply Z.mod_pos_bound; lia). lia.
Qed.

Lemma blocks_length (fuel : nat) :
  forall ws h, List.length h = 8%nat -> List.length (SHA256.blocks fuel ws h) = 8%nat.
Proof.
  induction fuel as [|fuel IH]; intros ws h Hh; simpl; [exact Hh|].
  destruct ws; [exact Hh|]. apply IH. reflexivity.
Qed.

Lemma hexdigest_chars (data : string) :
  List.length (list_ascii_of_string (SHA256.hexdigest data)) = 64%nat /\
  Forall is_hex (list_ascii_of_string (SHA256.hexdigest data)).
Proof.
  unfold SHA256.hexdigest. rewrite list_ascii_of_string_of_list_ascii.
  pose proof (blocks_length (List.length (SHA256.words (SHA256.pad (SHA256.bytes_of_string data))))
                (SHA256.words (SHA256.pad (SHA256.bytes_of_string data))) SHA256.H0 eq_refl) as Hl.
  fold (SHA256.digest (SHA256.bytes_of_string data)) in Hl.
  destruct (SHA256.digest (SHA256.bytes_of_string data)) as [|a [|b [|c [|d [|e [|f [|g [|h [|]]]]]]]]];
    try discriminate Hl.
  split; [reflexivity|].
  simpl. repeat (constructor; [apply hex_digit_is_hex|]). constructor.
Qed.

Lemma string_length_list (s : string) :
  String.length s = List.length (list_ascii_of_string s).
Proof. induction s; simpl; congruence. Qed.

(** C8.  [compute_hash] is a function of the product alone: two dicts
    holding the same fields, entered in any order, have the same digest;
    and a digest is always 64 lower-case hexadecimal characters. *)
Theorem compute_hash_stable (p1 p2 : pydict) :
  (NoDup (keys p1) -> Permutation p1 p2 ->
   Transformer.compute_hash p1 = Transformer.compute_hash p2) /\
  String.length (Transformer.compute_hash p1) = 64%nat /\
  Forall is_hex (list_ascii_of_string (Transformer.compute_hash p1)).
Proof.
  split; [|rewrite string_length_list; apply hexdigest_chars].
  intros Hnd Hp. unfold Transformer.compute_hash. f_equal. simpl. do 4 f_equal.
  apply sort_items_permutation.
  - unfold keys in *. now rewrite map_map.
  - now apply Permutation_map.
Qed.

Lemma compute_hash_stable_witness :
  Transformer.compute_hash kavovar = Transformer.compute_hash kavovar_reversed.
Proof.
  apply (proj1 (compute_hash_stable kavovar kavovar_reversed)).
  - repeat constructor; simpl; intuition discriminate.
  - exact (Permutation_rev kavovar).
Defined.

(** SHA-256 and the serialisation agree with the digests Python gives. *)
Example sha256_abc :
  SHA256.hexdigest "abc"
  = "ba7816bf8f01cfea414140de5dae2223b00361a396177a9cb410ff61f20015ad".
Proof. vm_compute. reflexivity. Qed.

Example compute_hash_kavovar :
  Transformer.compute_hash kavovar
  = "089aff23a49b756c1adef439e0a0950168c3bc0486293f2f33c3e24baf83b62e".
Proof. vm_compute. reflexivity. Qed.

End Fingerprint.

(** ** Powers of two and the grid of binary64 *)

Lemma pow2_Qpower (e : Z) : (pow2 e == 2 ^ e)%Q.
Proof.
  destruct e as [|p|p]; unfold pow2.
  - reflexivity.
  - rewrite Zpower_Qpower by lia. reflexivity.
  - change (2 ^ Z.neg p)%Q with (/ (2 ^ Z.pos p))%Q.
    rewrite <- (Zpower_Qpower 2 (Z.pos p)) by lia.
    rewrite <- Pos2Z.inj_pow. reflexivity.
Qed.

Lemma pow2_add (x y : Z) : (pow2 (x + y) == pow2 x * pow2 y)%Q.
Proof.
  rewrite !pow2_Qpower. apply Qpower_plus. discriminate.
Qed.

Lemma pow2_nonneg_ge1 (k : Z) : 0 <= k -> (1 <= pow2 k)%Q.
Proof.
  intros Hk. destruct k as [|p|p]; unfold pow2; try lia.
  - apply Qle_refl.
  - change 1%Q with (inject_Z 1). rewrite <- Zle_Qle.
    assert (0 < 2 ^ Z.pos p) by (apply Z.pow_pos_nonneg; lia). lia.
Qed.

Lemma pow2_le (x y : Z) : x <= y -> (pow2 x <= pow2 y)%Q.
Proof.
  intros H. replace y with (x + (y - x)) by lia. rewrite pow2_add.
  rewrite <- (Qmult_1_r (pow2 x)) at 1.
  apply Qmult_le_l; [apply pow2_pos|]. apply pow2_nonneg_ge1. lia.
Qed.

(** A positive rational is at least the power of two that the logarithms
    of its numerator and denominator give. *)
Lemma pow2_log2_le (q : Q) :
  (0 < q)%Q -> (pow2 (Z.log2 (Qnum q) - Z.log2 (Zpos (Qden q)) - 1) <= q)%Q.
Proof.
  destruct q as [n d]. intros Hn0.
  assert (Hn : 0 < n) by (unfold Qlt in Hn0; simpl in Hn0; lia). clear Hn0.
  cbn [Qnum Qden].
  set (a := Z.log2 n). set (b := Z.log2 (Z.pos d)).
  assert (Ha : 2 ^ a <= n) by (apply Z.log2_spec; lia).
  assert (Hb : Z.pos d < 2 ^ (b + 1)).
  { replace (b + 1) with (Z.succ b) by lia. apply Z.log2_spec. lia. }
  assert (Ha0 : 0 <= a) by apply Z.log2_nonneg.
  assert (Hb0 : 0 <= b) by apply Z.log2_nonneg.
  replace (a - b - 1) with (a + - (b + 1)) by lia.
  rewrite pow2_add.
  assert (E1 : (pow2 a == inject_Z (2 ^ a))%Q).
  { destruct a; try lia; reflexivity. }
  assert (E2 : (pow2 (- (b + 1)) * inject_Z (2 ^ (b + 1)) == 1)%Q).
  { assert (E : (inject_Z (2 ^ (b + 1)) == pow2 (b + 1))%Q).
    { destruct (b + 1) eqn:Eb; try lia; reflexivity. }
    setoid_rewrite E. rewrite <- pow2_add. replace (- (b + 1) + (b + 1)) with 0 by lia. reflexivity. }
  rewrite E1.
  apply Qle_trans with (inject_Z n * pow2 (- (b + 1)))%Q.
  - apply Qmult_le_compat_r; [now rewrite <- Zle_Qle | apply Qlt_le_weak, pow2_pos].
  - (* n * 2^-(b+1) <= n/d  since d <= 2^(b+1) *)
    assert (Hd : (inject_Z (Z.pos d) <= inject_Z (2 ^ (b + 1)))%Q) by (rewrite <- Zle_Qle; lia).
    assert (Hp := pow2_pos (- (b + 1))).
    set (u := pow2 (- (b + 1))) in *.
    assert (Hq : (n # d == inject_Z n / inject_Z (Z.pos d))%Q) by apply Qmake_Qdiv.
    rewrite Hq.
    apply Qle_shift_div_l; [reflexivity|].
    rewrite <- Qmult_assoc.
    rewrite <- (Qmult_1_r (inject_Z n)) at 2.
    apply Qmult_le_l; [change 0%Q with (inject_Z 0); now rewrite <- Zlt_Qlt|].
    rewrite <- E2. apply Qmult_le_l; assumption.
Qed.

Lemma round_half_even_ge1 (q : Q) : (1 <= q)%Q -> 1 <= round_half_even q.
Proof.
  intros H. unfold round_half_even.
  assert (Hf : 1 <= Qfloor q).
  { change 1 with (Qfloor 1). apply Qfloor_resp_le. exact H. }
  destruct (Qcompare _ _); [destruct (Z.even _)| |]; lia.
Qed.

Lemma fl_exponent_le (q : Q) :
  (pow2 (-1074) <= q)%Q -> (pow2 (fl_exponent q) <= q)%Q.
Proof.
  intros Hq.
  assert (Hpos : (0 < q)%Q) by (eapply Qlt_le_trans; [apply (pow2_pos (-1074)) | exact Hq]).
  unfold fl_exponent.
  set (e0 := Z.log2 (Qnum q) - Z.log2 (Z.pos (Qden q)) - 52).
  pose proof (pow2_log2_le q Hpos) as Hlog.
  replace (Z.log2 (Qnum q) - Z.log2 (Z.pos (Qden q)) - 1) with (e0 + 51) in Hlog by (unfold e0; lia).
  destruct (Qcompare q (pow2 (e0 + 52))) eqn:E.
  - apply Z.max_case; [exact Hq|].
    apply Qeq_alt in E. rewrite E. apply pow2_le. lia.
  - apply Z.max_case; [exact Hq|].
    eapply Qle_trans; [|exact Hlog]. apply pow2_le. lia.
  - apply Z.max_case; [exact Hq|].
    apply Qgt_alt in E. eapply Qle_trans; [|apply Qlt_le_weak; exact E]. apply pow2_le. lia.
Qed.

Lemma fl_abs_pos (q : Q) : (pow2 (-1074) <= q)%Q -> (0 < fl_abs q)%Q.
Proof.
  intros Hq. unfold fl_abs. rewrite Qred_correct.
  apply Qmult_lt_0_compat; [|apply pow2_pos].
  change 0%Q with (inject_Z 0). rewrite <- Zlt_Qlt.
  assert (1 <= round_half_even (q / pow2 (fl_exponent q))); [|lia].
  apply round_half_even_ge1.
  apply Qle_shift_div_l; [apply pow2_pos|].
  rewrite Qmult_1_l. now apply fl_exponent_le.
Qed.

Lemma fl_pos (q : Q) : (pow2 (-1074) <= q)%Q -> (0 < fl q)%Q.
Proof.
  intros Hq.
  assert (Hpos : (0 < q)%Q) by (eapply Qlt_le_trans; [apply (pow2_pos (-1074)) | exact Hq]).
  unfold fl. apply Qgt_alt in Hpos. rewrite Hpos. now apply fl_abs_pos.
Qed.

(** Every result of [fl] is an integer multiple of a power of two of the
    format. *)
Lemma fl_grid (q : Q) :
  exists (m e : Z), -1074 <= e /\ (fl q == inject_Z m * pow2 e)%Q.
Proof.
  unfold fl. destruct (Qcompare q 0).
  - exists 0, 0. split; [lia|]. reflexivity.
  - exists (- round_half_even (- q / pow2 (fl_exponent (- q)))), (fl_exponent (- q)).
    split; [unfold fl_exponent; lia|].
    unfold fl_abs. rewrite Qred_correct. rewrite inject_Z_opp. ring.
  - exists (round_half_even (q / pow2 (fl_exponent q))), (fl_exponent q).
    split; [unfold fl_exponent; lia|].
    unfold fl_abs. now rewrite Qred_correct.
Qed.

(** A result of [fl] below 1 leaves at least the smallest positive number
    of the format up to 1. *)
Lemma fl_lt1_gap (y : Q) : (fl y < 1)%Q -> (pow2 (-1074) <= 1 - fl y)%Q.
Proof.
  intros Hlt. destruct (fl_grid y) as (m & e & He & Hfl).
  rewrite Hfl in *. clear Hfl.
  assert (Hp := pow2_pos e).
  destruct (Z_le_gt_dec m 0) as [Hm|Hm].
  - apply Qle_trans with 1%Q.
    + change 1%Q with (pow2 0). apply pow2_le. lia.
    + assert (inject_Z m * pow2 e <= 0)%Q; [|lra].
      assert (inject_Z m <= 0)%Q by (change 0%Q with (inject_Z 0); now rewrite <- Zle_Qle).
      setoid_replace 0%Q with (0 * pow2 e)%Q by ring.
      apply Qmult_le_compat_r; [assumption | now apply Qlt_le_weak].
  - assert (He0 : e < 0).
    { destruct (Z_lt_ge_dec e 0) as [|Hge]; [assumption|exfalso].
      assert (1 <= pow2 e)%Q by (apply pow2_nonneg_ge1; lia).
      assert (1 <= inject_Z m)%Q by (change 1%Q with (inject_Z 1); rewrite <- Zle_Qle; lia).
      assert (1 * 1 <= inject_Z m * pow2 e)%Q by (apply Qmult_le_compat_nonneg; split; lra).
      lra. }
    assert (E1 : (1 == inject_Z (2 ^ (- e)) * pow2 e)%Q).
    { assert (E : (inject_Z (2 ^ (- e)) == pow2 (- e))%Q).
      { destruct (- e) eqn:Ee; try lia; reflexivity. }
      rewrite E, <- pow2_add. replace (- e + e) with 0 by lia. reflexivity. }
    assert (Hj : m < 2 ^ (- e)).
    { rewrite Zlt_Qlt. apply Qmult_lt_r with (pow2 e); [assumption|]. now rewrite <- E1. }
    setoid_replace (1 - inject_Z m * pow2 e)%Q
      with (inject_Z (2 ^ (- e) - m) * pow2 e)%Q
      by (unfold Zminus; rewrite inject_Z_plus, inject_Z_opp; rewrite E1 at 1; ring).
    apply Qle_trans with (pow2 e); [apply pow2_le; lia|].
    rewrite <- (Qmult_1_l (pow2 e)) at 1.
    apply Qmult_le_compat_r; [|now apply Qlt_le_weak].
    change 1%Q with (inject_Z 1). rewrite <- Zle_Qle. lia.
Qed.

Lemma remaining_wait_positive (now start : Q) :
  Qle_bool 1 (fl (now - start)) = false ->
  is_positive (fl (1 - fl (now - start))) = true.
Proof.
  intros H.
  assert (Hlt : (fl (now - start) < 1)%Q).
  { apply Qnot_le_lt. intros Hle. apply Qle_bool_iff in Hle. congruence. }
  unfold is_positive.
  pose proof (fl_pos _ (fl_lt1_gap _ Hlt)) as Hp.
  apply Qgt_alt in Hp. now rewrite Hp.
Qed.

(** ** RateLimiter.acquire *)

Section Limiter.
Import EshopClient.

Lemma positive_not_negative (q : Q) : is_positive q = true -> is_negative q = false.
Proof.
  unfold is_positive, is_negative. destruct (Qcompare q 0); congruence.
Qed.

Lemma acquire_in_window (w : world) (r k : Z) (start : Q) :
  limiter w = MkRateLimiter r k (Some start) ->
  Qle_bool 1 (fl (clock w - start)) = false ->
  0 < k ->
  acquire w = (Ok tt, set_limiter (MkRateLimiter r (k - 1) (Some start)) w).
Proof.
  intros Hl Hw Hk. unfold acquire, window_expired. rewrite Hl. simpl. rewrite Hw.
  simpl. apply Z.ltb_lt in Hk. now rewrite Hk.
Qed.

Lemma acquire_expired (w : world) (r : Z) :
  window_expired (clock w) (limiter w) = true ->
  _rate (limiter w) = r -> 0 < r ->
  acquire w = (Ok tt, set_limiter (MkRateLimiter r (r - 1) (Some (clock w))) w).
Proof.
  intros He Hr Hpos. unfold acquire. rewrite He. simpl. rewrite Hr.
  apply Z.ltb_lt in Hpos. now rewrite Hpos.
Qed.

Lemma acquire_exhausted (w : world) (r k : Z) (start : Q) :
  limiter w = MkRateLimiter r k (Some start) ->
  Qle_bool 1 (fl (clock w - start)) = false ->
  k <= 0 ->
  let wait := fl (1 - fl (clock w - start)) in
  (0 < wait)%Q /\
  acquire w
  = (Ok tt,
     World (clock w + wait) (script w)
           (trace w ++ [Sleep AtLimiter (Fin wait)])
           (MkRateLimiter r (r - 1) (Some (clock w + wait)%Q)) (db w)).
Proof.
  intros Hl Hw Hk wait.
  pose proof (remaining_wait_positive _ _ Hw) as Hpos. fold wait in Hpos.
  split.
  - unfold is_positive in Hpos. destruct (Qcompare wait 0) eqn:E; try discriminate.
    now apply Qgt_alt.
  - unfold acquire, window_expired. rewrite Hl. simpl. rewrite Hw. simpl.
    assert (Hk' : (0 <? k) = false) by (apply Z.ltb_ge; lia). rewrite Hk'.
    fold wait. rewrite Hpos. unfold sleep. rewrite (positive_not_negative _ Hpos).
    reflexivity.
Qed.

Lemma acquire_bounds (r : Z) (w : world) :
  1 <= r -> tokens_in_range r (limiter w) ->
  exists w' evs,
    acquire w = (Ok tt, w') /\ tokens_in_range r (limiter w') /\
    trace w' = (trace w ++ evs)%list.
Proof.
  intros Hr [Hrate Htok].
  destruct (window_expired (clock w) (limiter w)) eqn:He.
  - rewrite (acquire_expired w r He Hrate) by lia.
    eexists _, []. rewrite app_nil_r. repeat split; simpl; lia.
  - unfold window_expired in He.
    destruct (limiter w) as [r0 k [start|]] eqn:Hl; simpl in *; [|discriminate]. subst r0.
    destruct (Z_lt_ge_dec 0 k) as [Hk|Hk].
    + rewrite (acquire_in_window w r k start Hl He Hk).
      eexists _, []. rewrite app_nil_r. repeat split; simpl; lia.
    + destruct (acquire_exhausted w r k start Hl He) as [_ ->]; [lia|].
      eexists _, [_]. repeat split; simpl; lia.
Qed.

Lemma acquire_each_bounds (r : Z) (delays : list Q) :
  1 <= r ->
  forall w, tokens_in_range r (limiter w) ->
  exists w' evs,
    acquire_each delays w = (Ok tt, w') /\ tokens_in_range r (limiter w') /\
    trace w' = (trace w ++ evs)%list.
Proof.
  intros Hr. induction delays as [|d ds IH]; intros w Hw; simpl.
  - exists w, []. rewrite app_nil_r. auto.
  - destruct (acquire_bounds r (set_clock (clock w + d) w) Hr Hw) as (w1 & ev1 & E1 & H1 & T1).
    unfold bindM. rewrite E1.
    destruct (IH w1 H1) as (w2 & ev2 & E2 & H2 & T2).
    exists w2, (ev1 ++ ev2)%list. rewrite E2. repeat split; try apply H2.
    rewrite T2, T1. simpl. now rewrite app_assoc.
Qed.

(** [k] tokens left in a running window: the next [k] calls that fall in
    the window go through at once and use them up. *)
Lemma acquire_each_in_window (r : Z) (start : Q) (delays : list Q) :
  forall w k,
    limiter w = MkRateLimiter r k (Some start) ->
    Z.of_nat (List.length delays) <= k ->
    within_window start (clock w) delays ->
    acquire_each delays w
    = (Ok tt,
       World (fold_left Qplus delays (clock w)) (script w) (trace w)
             (MkRateLimiter r (k - Z.of_nat (List.length delays)) (Some start)) (db w)).
Proof.
  induction delays as [|d ds IH]; intros w k Hl Hlen Hin.
  - simpl. unfold ret. destruct w as [c s t l b]. simpl in *. subst l.
    rewrite Z.sub_0_r. reflexivity.
  - simpl in Hin. destruct Hin as [Hd Hin].
    cbn [acquire_each]. unfold bindM.
    rewrite (acquire_in_window (set_clock (clock w + d) w) r k start Hl Hd)
      by (simpl in Hlen; lia).
    rewrite (IH _ (k - 1)); simpl; try assumption; try reflexivity.
    + do 3 f_equal. rewrite Zpos_P_of_succ_nat. lia.
    + simpl in Hlen. rewrite Zpos_P_of_succ_nat in Hlen. lia.
Qed.

Lemma acquire_each_app (l1 l2 : list Q) (w : world) :
  acquire_each (l1 ++ l2) w = bindM (acquire_each l1) (fun _ => acquire_each l2) w.
Proof.
  revert w. induction l1 as [|d l1 IH]; intros w; simpl; [reflexivity|].
  unfold bindM in *.
  destruct (acquire (set_clock (clock w + d) w)) as [[[]|e] w1]; [|reflexivity].
  apply IH.
Qed.

Lemma within_window_app (start : Q) (l1 l2 : list Q) :
  forall now,
    within_window start now (l1 ++ l2) ->
    within_window start now l1 /\ within_window start (fold_left Qplus l1 now) l2.
Proof.
  induction l1 as [|d l1 IH]; intros now H; simpl in *; [auto|].
  destruct H as [Hd H]. destruct (IH _ H). auto.
Qed.

(** Calls that fall in a running window and all return without
    suspending are no more than the tokens the window had left. *)
Lemma calls_without_sleep_bounded (r : Z) (w w' : world) (start : Q) (k : Z)
    (delays : list Q) :
  1 <= r ->
  limiter w = MkRateLimiter r k (Some start) -> 0 <= k <= r ->
  within_window start (clock w) delays ->
  acquire_each delays w = (Ok tt, w') ->
  trace w' = trace w ->
  Z.of_nat (List.length delays) <= k.
Proof.
  intros Hr Hl Hk Hin E Htr.
  destruct (Z_le_gt_dec (Z.of_nat (List.length delays)) k) as [|Hgt];
    [assumption|exfalso].
  assert (Hsplit : exists l1 d l2, delays = (l1 ++ d :: l2)%list /\ Z.of_nat (List.length l1) = k).
  { exists (firstn (Z.to_nat k) delays).
    destruct (skipn (Z.to_nat k) delays) as [|d l2] eqn:Es.
    - apply (f_equal (@List.length Q)) in Es. rewrite length_skipn in Es. simpl in Es. lia.
    - exists d, l2. split.
      + rewrite <- Es. symmetry. apply firstn_skipn.
      + rewrite length_firstn. lia. }
  destruct Hsplit as (l1 & d & l2 & -> & Hl1).
  apply within_window_app in Hin. destruct Hin as [Hin1 Hin2].
  simpl in Hin2. destruct Hin2 as [Hd _].
  rewrite acquire_each_app in E. unfold bindM in E.
  rewrite (acquire_each_in_window r start l1 w k Hl) in E by (assumption || lia).
  cbn [acquire_each] in E. unfold bindM in E.
  match type of E with context [acquire ?w0] =>
    destruct (acquire_exhausted w0 r (k - Z.of_nat (List.length l1)) start) as [_ Ea];
      [reflexivity | exact Hd | lia | ]
  end.
  rewrite Ea in E. clear Ea.
  match type of E with acquire_each l2 ?w1 = _ =>
    destruct (acquire_each_bounds r l2 Hr w1) as (w2 & evs & E2 & _ & T2);
      [split; simpl; lia|]
  end.
  rewrite E2 in E. injection E as <-.
  rewrite T2 in Htr. simpl in Htr.
  apply (f_equal (@List.length event)) in Htr.
  rewrite !length_app in Htr. simpl in Htr. lia.
Qed.

(** C9.  A limiter of rate [r >= 1]: (a) whatever the sequence of
    [acquire] calls, every call returns and the token count stays between
    0 and [r]; (b) on a fresh limiter the first [r] calls made within one
    time unit return at once, without any sleep, and the next call in that
    window sleeps for the positive rest of the window and leaves [r - 1]
    tokens in the window it opens on waking; (c) calls that all fall in
    one window and all return without suspending are never more than the
    tokens the window had left, hence never more than [r]; (d) counting
    from the call that opens a window, at most [r] calls of that window
    return without suspending. *)
Theorem rate_limiter_windows (r : Z) :
  1 <= r ->
  (forall w delays,
      tokens_in_range r (limiter w) ->
      exists w', acquire_each delays w = (Ok tt, w') /\
                 tokens_in_range r (limiter w')) /\
  (forall w delays d,
      limiter w = RateLimiter_init r ->
      Z.of_nat (List.length delays) = r - 1 ->
      within_window (clock w) (clock w) (delays ++ [d]) ->
      exists w1,
        bindM acquire (fun _ => acquire_each delays) w = (Ok tt, w1) /\
        trace w1 = trace w /\
        limiter w1 = MkRateLimiter r 0 (Some (clock w)) /\
        let now := (clock w1 + d)%Q in
        let wait := fl (1 - fl (now - clock w)) in
        (0 < wait)%Q /\
        acquire (set_clock now w1)
        = (Ok tt,
           World (now + wait) (script w)
                 (trace w ++ [Sleep AtLimiter (Fin wait)])
                 (MkRateLimiter r (r - 1) (Some (now + wait)%Q)) (db w))) /\
  (forall w start k delays w',
      limiter w = MkRateLimiter r k (Some start) -> 0 <= k <= r ->
      within_window start (clock w) delays ->
      acquire_each delays w = (Ok tt, w') ->
      trace w' = trace w ->
      Z.of_nat (List.length delays) <= k <= r) /\
  (forall w delays w',
      _rate (limiter w) = r ->
      window_expired (clock w) (limiter w) = true ->
      within_window (clock w) (clock w) delays ->
      bindM acquire (fun _ => acquire_each delays) w = (Ok tt, w') ->
      trace w' = trace w ->
      Z.of_nat (S (List.length delays)) <= r).
Proof.
  intros Hr. split; [|split; [|split]].
  - intros w delays Hw.
    destruct (acquire_each_bounds r delays Hr w Hw) as (w' & evs & E & H & _).
    eauto.
  - intros w delays d Hl Hlen Hin.
    apply within_window_app in Hin. destruct Hin as [Hin1 Hin2].
    simpl in Hin2. destruct Hin2 as [Hd _].
    unfold bindM.
    rewrite (acquire_expired w r); [| now rewrite Hl | now rewrite Hl | lia].
    rewrite (acquire_each_in_window r (clock w) delays _ (r - 1)); try reflexivity;
      try assumption; try lia.
    replace (r - 1 - Z.of_nat (List.length delays)) with 0 by lia.
    eexists. split; [reflexivity|]. split; [reflexivity|]. split; [reflexivity|].
    apply (acquire_exhausted
             (World (fold_left Qplus delays (clock w) + d) (script w) (trace w)
                    (MkRateLimiter r 0 (Some (clock w))) (db w)) r 0 (clock w));
      [reflexivity | exact Hd | lia].
  - intros w start k delays w' Hl Hk Hin E Htr.
    split; [|lia].
    eapply calls_without_sleep_bounded; eassumption.
  - intros w delays w' Hrate Hexp Hin E Htr.
    unfold bindM in E.
    rewrite (acquire_expired w r Hexp Hrate) in E by lia.
    assert (Hb : Z.of_nat (List.length delays) <= r - 1).
    { apply (calls_without_sleep_bounded
               r (set_limiter (MkRateLimiter r (r - 1) (Some (clock w))) w)
               w' (clock w) (r - 1) delays Hr);
        [reflexivity | lia | exact Hin | exact E | exact Htr]. }
    rewrite Nat2Z.inj_succ. lia.
Qed.

Lemma rate_limiter_windows_witness :
  exists w', acquire_each [0; 0; 0; 0; 0; 1 # 2; 0]%Q
               (World 0 [] [] (RateLimiter_init 5) []) = (Ok tt, w') /\
             tokens_in_range 5 (limiter w').
Proof.
  apply (proj1 (rate_limiter_windows 5 ltac:(lia))).
  split; simpl; lia.
Defined.

(** Rate 5: five calls at once, the sixth waits for the rest of the
    window, the seventh, right after, goes through. *)
Example five_then_wait :
  let (result, w) :=
    acquire_each [0; 0; 0; 0; 0; 1 # 4; 0]%Q (World 0 [] [] (RateLimiter_init 5) []) in
  result = Ok tt /\ trace w = [Sleep AtLimiter (Fin (3 # 4))] /\
  _tokens (limiter w) = 3 /\ (clock w == 1)%Q.
Proof. vm_compute. repeat split. Qed.

End Limiter.

(** ** EshopClient._request_with_retry *)

Section Client.
Import EshopClient.

Lemma attempts_app (t1 t2 : list event) :
  attempts (t1 ++ t2) = (attempts t1 + attempts t2)%nat.
Proof. unfold attempts. now rewrite filter_app, length_app. Qed.

Lemma backoff_waits_app (t1 t2 : list event) :
  backoff_waits (t1 ++ t2) = (backoff_waits t1 ++ backoff_waits t2)%list.
Proof. unfold backoff_waits. apply flat_map_app. Qed.

Lemma limiter_events_silent (evs : list event) :
  Forall limiter_event evs -> attempts evs = 0%nat /\ backoff_waits evs = [].
Proof.
  induction 1 as [|e evs [d ->] _ [IH1 IH2]]; [split; reflexivity|].
  split; [exact IH1 | exact IH2].
Qed.

(** [acquire] always returns; all it shows to the outside is, at most,
    a sleep of its own. *)
Lemma acquire_effect (w : world) :
  exists w' evs,
    acquire w = (Ok tt, w') /\ trace w' = (trace w ++ evs)%list /\
    Forall limiter_event evs /\ script w' = script w /\ db w' = db w.
Proof.
  unfold acquire.
  set (l1 := if window_expired (clock w) (limiter w) then _ else _).
  destruct (0 <? _tokens l1).
  - eexists _, []. rewrite app_nil_r. repeat split; constructor.
  - set (wait := fl _).
    destruct (is_positive wait) eqn:Hp.
    + unfold sleep. rewrite (positive_not_negative _ Hp).
      eexists _, [_]. repeat split. repeat constructor. now exists (Fin wait).
    + eexists _, []. rewrite app_nil_r. repeat split; constructor.
Qed.

Lemma sleep_effect (s : site) (d : pyfloat) (w : world) :
  exists result w',
    sleep s d w = (result, w') /\
    trace w' = (trace w ++ [Sleep s d])%list /\
    script w' = script w /\ db w' = db w /\
    (sleepable d = true -> result = Ok tt) /\
    (sleepable d = false -> exists e, result = Raise e).
Proof.
  unfold sleep, sleepable. destruct d as [q| |].
  - destruct (is_negative q); eexists _, _; repeat split; try discriminate; eauto.
  - eexists _, _; repeat split; try discriminate; eauto.
  - eexists _, _; repeat split; try discriminate; eauto.
Qed.

(** One pass through the loop, up to the answer of the service. *)
Lemma retry_loop_request (n : nat) (b : Q) (c : client) (method url : string)
    (payload : pydict) (w : world) :
  exists w1 evs,
    trace w1 = (trace w ++ evs ++ [Request method url (_api_key c) payload])%list /\
    Forall limiter_event evs /\ db w1 = db w /\
    match script w with
    | [] =>
        script w1 = [] /\
        retry_loop (S n) b c method url payload w = (Raise ConnectionError, w1)
    | Failure _ e :: rest =>
        script w1 = rest /\
        retry_loop (S n) b c method url payload w = (Raise e, w1)
    | Reply _ r :: rest =>
        script w1 = rest /\
        retry_loop (S n) b c method url payload w
        = (if status_code r =? 429 then
             bindM (sleep AtBackoff match _parse_retry_after r with
                                    | Some retry_after => retry_after
                                    | None => Fin b
                                    end)
                   (fun _ => retry_loop n (fl (b * 2)) c method url payload)
           else bindM (raise_for_status r) (fun _ => ret r)) w1
    end.
Proof.
  destruct (acquire_effect w) as (w0 & evs & Ea & Ht & Hev & Hs & Hd).
  assert (E : retry_loop (S n) b c method url payload w
              = bindM (session_request c method url payload)
                      (fun r =>
                         if status_code r =? 429 then
                           bindM (sleep AtBackoff match _parse_retry_after r with
                                                  | Some retry_after => retry_after
                                                  | None => Fin b
                                                  end)
                                 (fun _ => retry_loop n (fl (b * 2)) c method url payload)
                         else bindM (raise_for_status r) (fun _ => ret r)) w0).
  { cbn [retry_loop]. unfold bindM at 1. now rewrite Ea. }
  assert (Hreq : forall rest0,
             script w = rest0 ->
             session_request c method url payload w0
             = match rest0 with
               | [] => (Raise ConnectionError,
                        log (Request method url (_api_key c) payload) w0)
               | Reply lat r :: rest =>
                   (Ok r, set_clock (clock w0 + lat)
                            (set_script rest
                               (log (Request method url (_api_key c) payload) w0)))
               | Failure lat e :: rest =>
                   (Raise e, set_clock (clock w0 + lat)
                               (set_script rest
                                  (log (Request method url (_api_key c) payload) w0)))
               end).
  { intros rest0 <-. unfold session_request. cbn [script log]. now rewrite Hs. }
  destruct (script w) as [|[lat r|lat e] rest] eqn:Esw;
    rewrite E; unfold bindM at 1; rewrite (Hreq _ eq_refl).
  - exists (log (Request method url (_api_key c) payload) w0), evs.
    cbn. rewrite Ht, <- app_assoc. auto.
  - exists (set_clock (clock w0 + lat)
                      (set_script rest (log (Request method url (_api_key c) payload) w0))), evs.
    cbn. rewrite Ht, <- app_assoc. auto.
  - exists (set_clock (clock w0 + lat)
                      (set_script rest (log (Request method url (_api_key c) payload) w0))), evs.
    cbn. rewrite Ht, <- app_assoc. auto.
Qed.

(** What the loop shows to the outside with [n] passes left. *)
Lemma retry_loop_trace (c : client) (method url : string) (payload : pydict)
    (n : nat) :
  forall b w,
  exists result w',
    retry_loop n b c method url payload w = (result, w') /\
    backoff_waits (trace w') = (backoff_waits (trace w) ++ waits_from n b (script w))%list /\
    (attempts (trace w') <= attempts (trace w) + n)%nat /\
    db w' = db w.
Proof.
  induction n as [|n IH]; intros b w.
  - eexists _, w. cbn. rewrite app_nil_r. repeat split. lia.
  - destruct (retry_loop_request n b c method url payload w)
      as (w1 & evs & Ht & Hev & Hd & Hcase).
    destruct (limiter_events_silent _ Hev) as [Hat Hbw].
    assert (Hat1 : attempts (trace w1) = S (attempts (trace w))).
    { rewrite Ht, !attempts_app, Hat. cbn. lia. }
    assert (Hbw1 : backoff_waits (trace w1) = backoff_waits (trace w)).
    { rewrite Ht, !backoff_waits_app, Hbw. cbn. now rewrite app_nil_r. }
    destruct (script w) as [|[lat r|lat e] rest]; destruct Hcase as [Hs ->].
    + eexists _, w1. cbn. rewrite app_nil_r. repeat split; auto. lia.
    + cbn [waits_from]. destruct (status_code r =? 429).
      * set (wait := match _parse_retry_after r with Some x => x | None => Fin b end).
        destruct (sleep_effect AtBackoff wait w1) as (res & w2 & Es & Ht2 & Hs2 & Hd2 & Hok & Hbad).
        unfold bindM. rewrite Es.
        destruct (sleepable wait) eqn:Hsl.
        -- rewrite (Hok eq_refl).
           destruct (IH (fl (b * 2)) w2) as (res3 & w3 & E3 & Hb3 & Ha3 & Hd3).
           rewrite E3. eexists _, w3. split; [reflexivity|].
           rewrite Hb3, Ht2, backoff_waits_app, Hbw1, Hs2, Hs. cbn.
           rewrite <- app_assoc. cbn.
           rewrite Ht2, attempts_app, Hat1 in Ha3. cbn in Ha3.
           repeat split; try lia; congruence.
        -- destruct (Hbad eq_refl) as [e ->].
           eexists _, w2. split; [reflexivity|].
           rewrite Ht2, backoff_waits_app, Hbw1, attempts_app, Hat1. cbn.
           repeat split; try lia; congruence.
      * unfold bindM, raise_for_status.
        destruct ((400 <=? status_code r) && (status_code r <? 600));
          eexists _, w1; cbn; rewrite app_nil_r; repeat split; auto; lia.
    + eexists _, w1. cbn. rewrite app_nil_r. repeat split; auto. lia.
Qed.

Lemma backoff_doubles (k : nat) :
  (k <= 2)%nat -> fl (backoff_after k * 2) = backoff_after (S k).
Proof.
  intros Hk. destruct k as [|[|[|k]]]; try lia; vm_compute; reflexivity.
Qed.

Lemma waits_from_expected (n : nat) :
  forall k answers,
    (n + k <= 3)%nat ->
    waits_from n (backoff_after k) answers = expected_waits n k answers.
Proof.
  induction n as [|n IH]; intros k answers Hk; [reflexivity|].
  destruct answers as [|[lat r|lat e] rest]; try reflexivity.
  cbn [waits_from expected_waits].
  assert (E : match _parse_retry_after r with
              | Some retry_after => retry_after
              | None => Fin (backoff_after k)
              end = expected_wait k r).
  { unfold _parse_retry_after, expected_wait.
    destruct (header_get "Retry-After" (headers r)); reflexivity. }
  rewrite E. destruct (status_code r =? 429); [|reflexivity].
  f_equal. destruct (sleepable (expected_wait k r)); [|reflexivity].
  rewrite backoff_doubles by lia. apply IH. lia.
Qed.

(** C4.  The waits [_request_with_retry] asks for between attempts are,
    one per 429 answer, the value of the answer's Retry-After header when
    it is there and reads as a number, and otherwise the backoff 1.0
    doubled once for every 429 before it; so two 429 answers in a row
    that carry no Retry-After header make it wait 1.0 and then 2.0. *)
Theorem retry_waits (c : client) (method url : string) (payload : pydict) (w : world) :
  (exists result w',
      _request_with_retry c method url payload w = (result, w') /\
      backoff_waits (trace w')
      = (backoff_waits (trace w) ++ expected_waits 3 0 (script w))%list) /\
  (forall lat1 r1 lat2 r2 rest,
      script w = Reply lat1 r1 :: Reply lat2 r2 :: rest ->
      status_code r1 = 429 -> status_code r2 = 429 ->
      header_get "Retry-After" (headers r1) = None ->
      header_get "Retry-After" (headers r2) = None ->
      exists later,
        expected_waits 3 0 (script w) = Fin 1 :: Fin 2 :: later).
Proof.
  split.
  - destruct (retry_loop_trace c method url payload 3 1 w)
      as (result & w' & E & Hb & _ & _).
    exists result, w'. split; [exact E|].
    rewrite Hb. f_equal. apply (waits_from_expected 3 0). lia.
  - intros lat1 r1 lat2 r2 rest -> H1 H2 N1 N2.
    cbn [expected_waits]. unfold expected_wait. rewrite H1, H2, N1, N2. cbn.
    eexists. reflexivity.
Qed.

Lemma retry_waits_witness :
  exists later,
    expected_waits 3 0 (script (fresh_world [throttled; throttled; created]))
    = Fin 1 :: Fin 2 :: later.
Proof.
  apply (proj2 (retry_waits shop "POST" "https://api.fake-eshop.cz/v1/products/" kavovar
                            (fresh_world [throttled; throttled; created]))
               0%Q (Response 429 [] "") 0%Q (Response 429 [] "") [created]);
    reflexivity.
Defined.

(** Two 429 answers without the header, then success: waits of 1.0 and
    2.0; a header that does not read as a number falls back on 1.0; a
    header of 0 is a wait of 0. *)
Example backoff_one_then_two :
  backoff_waits
    (trace (snd (_request_with_retry shop "POST" "https://api.fake-eshop.cz/v1/products/"
                   kavovar (fresh_world [throttled; throttled; created]))))
  = [Fin 1; Fin 2].
Proof. vm_compute. reflexivity. Qed.

Example retry_after_not_numeric :
  backoff_waits
    (trace (snd (_request_with_retry shop "POST" "https://api.fake-eshop.cz/v1/products/"
                   kavovar (fresh_world [throttled_for "next-tuesday"; created]))))
  = [Fin 1].
Proof. vm_compute. reflexivity. Qed.

Example retry_after_zero :
  backoff_waits
    (trace (snd (_request_with_retry shop "POST" "https://api.fake-eshop.cz/v1/products/"
                   kavovar (fresh_world [throttled_for "0"; created]))))
  = [Fin 0].
Proof. vm_compute. reflexivity. Qed.

(** C7.  An answer whose status is a client or server error other than
    429 makes the loop raise [HTTPError] with that status and body on the
    spot: the attempt that received it is the last, and no backoff wait
    follows.  For [_request_with_retry] receiving it first: exactly one
    attempt. *)
Theorem http_error_raised_at_once (c : client) (method url : string)
    (payload : pydict) (w : world) (lat : Q) (r : response) (rest : list exchange) :
  script w = Reply lat r :: rest ->
  400 <= status_code r < 600 -> status_code r <> 429 ->
  (exists w',
      _request_with_retry c method url payload w
      = (Raise (HTTPError (status_code r) (text r)), w') /\
      attempts (trace w') = S (attempts (trace w)) /\
      backoff_waits (trace w') = backoff_waits (trace w) /\
      script w' = rest /\ db w' = db w) /\
  (forall n b,
      exists w',
        retry_loop (S n) b c method url payload w
        = (Raise (HTTPError (status_code r) (text r)), w') /\
        attempts (trace w') = S (attempts (trace w)) /\
        backoff_waits (trace w') = backoff_waits (trace w) /\
        script w' = rest /\ db w' = db w).
Proof.
  intros Hs Hrange Hne.
  assert (Hgen : forall n b,
             exists w',
               retry_loop (S n) b c method url payload w
               = (Raise (HTTPError (status_code r) (text r)), w') /\
               attempts (trace w') = S (attempts (trace w)) /\
               backoff_waits (trace w') = backoff_waits (trace w) /\
               script w' = rest /\ db w' = db w).
  { intros n b.
    destruct (retry_loop_request n b c method url payload w)
      as (w1 & evs & Ht & Hev & Hd & Hcase).
    rewrite Hs in Hcase. destruct Hcase as [Hs1 E].
    destruct (limiter_events_silent _ Hev) as [Hat Hbw].
    exists w1. rewrite E.
    apply Z.eqb_neq in Hne. rewrite Hne.
    unfold bindM, raise_for_status.
    assert (Hr : (400 <=? status_code r) && (status_code r <? 600) = true).
    { apply andb_true_iff. split; [apply Z.leb_le | apply Z.ltb_lt]; lia. }
    rewrite Hr. cbn. split; [reflexivity|].
    rewrite Ht, !attempts_app, !backoff_waits_app, Hat, Hbw. cbn.
    rewrite app_nil_r. repeat split; auto; lia. }
  split; [apply (Hgen 2%nat 1%Q) | exact Hgen].
Qed.

Lemma http_error_raised_at_once_witness :
  exists w',
    _request_with_retry shop "POST" "https://api.fake-eshop.cz/v1/products/" kavovar
                        (fresh_world [server_error; created])
    = (Raise (HTTPError 500 ""), w') /\
    attempts (trace w') = 1%nat /\
    backoff_waits (trace w') = [] /\
    script w' = [created] /\ db w' = [].
Proof.
  apply (proj1 (http_error_raised_at_once
                  shop "POST" "https://api.fake-eshop.cz/v1/products/" kavovar
                  (fresh_world [server_error; created])
                  0%Q (Response 500 [] "") [created] eq_refl ltac:(simpl; lia)
                  ltac:(simpl; lia))).
Defined.

(** The loop never makes more than three attempts. *)
Lemma attempts_bounded (c : client) (method url : string) (payload : pydict) (w : world) :
  exists result w',
    _request_with_retry c method url payload w = (result, w') /\
    (attempts (trace w') <= attempts (trace w) + 3)%nat.
Proof.
  destruct (retry_loop_trace c method url payload 3 1 w) as (result & w' & E & _ & Ha & _).
  eauto.
Qed.

(** An answer that is neither a 429 nor an error is returned at once. *)
Lemma success_returned_at_once (c : client) (method url : string)
    (payload : pydict) (w : world) (lat : Q) (r : response) (rest : list exchange)
    (n : nat) (b : Q) :
  script w = Reply lat r :: rest ->
  status_code r < 400 \/ 600 <= status_code r ->
  exists w',
    retry_loop (S n) b c method url payload w = (Ok r, w') /\
    attempts (trace w') = S (attempts (trace w)) /\
    backoff_waits (trace w') = backoff_waits (trace w) /\
    script w' = rest.
Proof.
  intros Hs Hok.
  destruct (retry_loop_request n b c method url payload w)
    as (w1 & evs & Ht & Hev & Hd & Hcase).
  rewrite Hs in Hcase. destruct Hcase as [Hs1 E].
  destruct (limiter_events_silent _ Hev) as [Hat Hbw].
  exists w1. rewrite E.
  assert (Hne : (status_code r =? 429) = false) by (apply Z.eqb_neq; lia).
  rewrite Hne. unfold bindM, raise_for_status.
  assert (Hr : (400 <=? status_code r) && (status_code r <? 600) = false).
  { apply andb_false_iff. destruct Hok; [left; apply Z.leb_gt | right; apply Z.ltb_ge]; lia. }
  rewrite Hr. cbn. split; [reflexivity|].
  rewrite Ht, !attempts_app, !backoff_waits_app, Hat, Hbw. cbn.
  rewrite app_nil_r. repeat split; auto; lia.
Qed.

(** A 429 whose wait can be slept leads to the next pass. *)
Lemma throttled_goes_on (c : client) (method url : string)
    (payload : pydict) (w : world) (lat : Q) (r : response) (rest : list exchange)
    (n : nat) (b : Q) :
  script w = Reply lat r :: rest ->
  status_code r = 429 ->
  sleepable (match _parse_retry_after r with
             | Some retry_after => retry_after
             | None => Fin b
             end) = true ->
  exists w1,
    retry_loop (S n) b c method url payload w
    = retry_loop n (fl (b * 2)) c method url payload w1 /\
    attempts (trace w1) = S (attempts (trace w)) /\
    script w1 = rest.
Proof.
  intros Hs H429 Hsl.
  destruct (retry_loop_request n b c method url payload w)
    as (w1 & evs & Ht & Hev & Hd & Hcase).
  rewrite Hs in Hcase. destruct Hcase as [Hs1 E].
  destruct (limiter_events_silent _ Hev) as [Hat Hbw].
  set (wait := match _parse_retry_after r with Some x => x | None => Fin b end) in *.
  destruct (sleep_effect AtBackoff wait w1) as (res & w2 & Es & Ht2 & Hs2 & Hd2 & Hok & _).
  exists w2. rewrite E, H429. cbn. unfold bindM at 1. rewrite Es, (Hok Hsl).
  split; [reflexivity|].
  rewrite Ht2, Ht, !attempts_app, Hat. cbn. split; [lia | congruence].
Qed.

(** Three 429 answers whose waits can all be slept exhaust the retries:
    [RuntimeError], naming the method and the URL, after three
    attempts. *)
Lemma throttled_thrice_exhausted (c : client) (method url : string)
    (payload : pydict) (w : world) (l1 l2 l3 : Q) (r1 r2 r3 : response)
    (rest : list exchange) :
  script w = Reply l1 r1 :: Reply l2 r2 :: Reply l3 r3 :: rest ->
  status_code r1 = 429 -> status_code r2 = 429 -> status_code r3 = 429 ->
  sleepable (expected_wait 0 r1) = true ->
  sleepable (expected_wait 1 r2) = true ->
  sleepable (expected_wait 2 r3) = true ->
  exists w',
    _request_with_retry c method url payload w
    = (Raise (RuntimeError (rate_limit_message method url)), w') /\
    attempts (trace w') = (attempts (trace w) + 3)%nat.
Proof.
  intros Hs H1 H2 H3 S1 S2 S3.
  assert (Hw : forall k r b, b = backoff_after k ->
             match _parse_retry_after r with
             | Some retry_after => retry_after
             | None => Fin b
             end = expected_wait k r).
  { intros k r b ->. unfold _parse_retry_after, expected_wait.
    destruct (header_get "Retry-After" (headers r)); reflexivity. }
  unfold _request_with_retry, MAX_RETRIES.
  destruct (throttled_goes_on c method url payload w l1 r1 _ 2 1 Hs H1)
    as (w1 & E1 & A1 & Hs1); [now rewrite (Hw 0%nat)|].
  destruct (throttled_goes_on c method url payload w1 l2 r2 _ 1 (fl (1 * 2)) Hs1 H2)
    as (w2 & E2 & A2 & Hs2); [now rewrite (Hw 1%nat)|].
  destruct (throttled_goes_on c method url payload w2 l3 r3 _ 0 (fl (fl (1 * 2) * 2)) Hs2 H3)
    as (w3 & E3 & A3 & Hs3); [now rewrite (Hw 2%nat)|].
  exists w3. rewrite E1, E2, E3. cbn. split; [reflexivity | lia].
Qed.

(** C2 fails on the code.  Three 429 answers, the third asking for a
    negative wait: all three attempts are throttled, and the call ends in
    the [ValueError] of [time.sleep] instead of the error of exhausted
    retries. *)
Theorem negative_retry_after_masks_exhaustion :
  let (result, w') :=
    _request_with_retry shop "POST" "https://api.fake-eshop.cz/v1/products/" kavovar
                        (fresh_world [throttled; throttled; throttled_for "-1"]) in
  result = Raise ValueError /\
  attempts (trace w') = 3%nat /\
  backoff_waits (trace w') = [Fin 1; Fin 2; Fin (-1)] /\
  result <> Raise (RuntimeError
                     (rate_limit_message "POST" "https://api.fake-eshop.cz/v1/products/")).
Proof. vm_compute. repeat split. discriminate. Qed.

(** With waits that can be slept, the same three answers exhaust the
    retries as the tests expect. *)
Example throttled_thrice :
  fst (_request_with_retry shop "POST" "https://api.fake-eshop.cz/v1/products/" kavovar
         (fresh_world [throttled; throttled; throttled]))
  = Raise (RuntimeError
             "API request POST https://api.fake-eshop.cz/v1/products/ failed after 3 retries due to rate limiting.").
Proof. vm_compute. reflexivity. Qed.

End Client.

(** ** sync_products_task *)

Section Orchestrator.
Import Tasks.




Lemma send_product_db (c : EshopClient.client) (product : pydict) (is_new : bool) (w : world) :
  exists result w',
    EshopClient.send_product c product is_new w = (result, w') /\ db w' = db w.
Proof.
  unfold EshopClient.send_product, EshopClient.product_sku, bindM.
  destruct (dict_get "sku" product) as [sku|]; cbn [ret raise];
    [|exists (Raise KeyError), w; split; reflexivity].
  destruct is_new.
  - destruct (retry_loop_trace c "POST" (EshopClient._base_url c ++ "/products/") product 3 1 w)
      as (res & w' & E & _ & _ & Hd).
    exists res, w'. split; [exact E | exact Hd].
  - destruct (py_str sku) as [s|];
      [|exists (Raise TypeError), w; split; reflexivity].
    destruct (retry_loop_trace c "PATCH"
                (EshopClient._base_url c ++ "/products/" ++ s ++ "/") product 3 1 w)
      as (res & w' & E & _ & _ & Hd).
    exists res, w'. split; [exact E | exact Hd].
Qed.

Lemma get_state_pure (sku : value) (w : world) :
  exists result, get_state sku w = (result, w).
Proof.
  unfold get_state. destruct sku as [|[|]| | | | |]; cbn [py_str]; eexists; reflexivity.
Qed.

(** A failing body leaves the table alone. *)
Lemma try_sync_raise_db (c : EshopClient.client) (sku : value) (product : pydict)
    (new_hash : string) (w w' : world) (e : exn) :
  try_sync c sku product new_hash w = (Raise e, w') -> db w' = db w.
Proof.
  unfold try_sync, bindM.
  destruct (get_state_pure sku w) as [[state|e0] ->]; cbv beta iota;
    [|intros H; injection H as _ <-; reflexivity].
  destruct (match state with Some st => _ | None => false end); [discriminate|].
  destruct (send_product_db c product (match state with Some _ => false | None => true end) w)
    as ([r|e1] & w1 & -> & Hd); cbv beta iota;
    [|intros H; injection H as _ <-; assumption].
  unfold save_state.
  destruct sku as [|[|]| | | | |]; cbn [py_str]; cbv beta iota;
    intros H; try discriminate H; injection H as _ <-; assumption.
Qed.

Lemma sync_one_total (c : EshopClient.client) (product : pydict) (n : summary) (w : world) :
  has_sku product ->
  exists n' w',
    sync_one c product n w = (Ok n', w') /\ processed n' = processed n + 1 /\
    sent n <= sent n' /\ skipped n <= skipped n' /\ errors n <= errors n'.
Proof.
  intros [sku Hsku]. unfold sync_one, EshopClient.product_sku, bindM. rewrite Hsku.
  unfold ret.
  destruct (try_sync c sku product (Transformer.compute_hash product) w) as [[[|]|e] w'];
    eexists _, w'; (split; [reflexivity|]); unfold processed;
    cbn [sent skipped errors]; lia.
Qed.

Lemma sync_loop_total (c : EshopClient.client) (products : list pydict) :
  forall n w,
    Forall has_sku products ->
    exists n' w',
      sync_loop c products n w = (Ok n', w') /\
      processed n' = processed n + Z.of_nat (List.length products) /\
      sent n <= sent n' /\ skipped n <= skipped n' /\ errors n <= errors n'.
Proof.
  induction products as [|p products IH]; intros n w Hall.
  - exists n, w. cbn. repeat split; lia.
  - inversion Hall as [|? ? Hp Hall']; subst.
    destruct (sync_one_total c p n w Hp) as (n1 & w1 & E1 & P1 & B1).
    destruct (IH n1 w1 Hall') as (n2 & w2 & E2 & P2 & B2).
    exists n2, w2. cbn [sync_loop]. unfold bindM. rewrite E1, E2.
    split; [reflexivity|]. cbn [List.length]. rewrite Nat2Z.inj_succ. lia.
Qed.


Lemma table_get_put_same (k : string) (s : ProductSyncState)
    (t : list (string * ProductSyncState)) :
  table_get k (table_put k s t) = Some s.
Proof.
  induction t as [|[k' s'] t IH]; cbn.
  - now rewrite String.eqb_refl.
  - destruct (String.eqb k k') eqn:E; cbn.
    + now rewrite String.eqb_refl.
    + now rewrite E.
Qed.

Lemma table_get_put_other (k k' : string) (s : ProductSyncState)
    (t : list (string * ProductSyncState)) :
  k <> k' -> table_get k (table_put k' s t) = table_get k t.
Proof.
  intros Hne. induction t as [|[k0 s0] t IH]; cbn.
  - apply String.eqb_neq in Hne. now rewrite Hne.
  - destruct (String.eqb k' k0) eqn:E; cbn.
    + apply String.eqb_eq in E. subst k0.
      apply String.eqb_neq in Hne. now rewrite Hne.
    + destruct (String.eqb k k0); [reflexivity | exact IH].
Qed.

(** The three ways the body of the [try] can end. *)
Lemma try_sync_cases (c : EshopClient.client) (sku : value) (product : pydict)
    (new_hash : string) (w w' : world) (result : res outcome) :
  try_sync c sku product new_hash w = (result, w') ->
  (result = Ok Skipped /\ w' = w /\
   exists k st, sku <> VNone /\ py_str sku = Some k /\
                table_get k (db w) = Some st /\ content_hash st = new_hash) \/
  (result = Ok Sent /\
   exists k st, sku <> VNone /\ py_str sku = Some k /\
                content_hash st = new_hash /\ db w' = table_put k st (db w)) \/
  (exists e, result = Raise e /\ db w' = db w).
Proof.
  intros H.
  destruct result as [[|]|e].
  - (* sent *)
    right. left. split; [reflexivity|].
    unfold try_sync, bindM in H.
    destruct (get_state_pure sku w) as [[state|e0] E]; rewrite E in H; cbv beta iota in H;
      [|discriminate].
    destruct (match state with Some st => _ | None => false end); [discriminate|].
    destruct (send_product_db c product (match state with Some _ => false | None => true end) w)
      as ([r|e1] & w1 & E1 & Hd); rewrite E1 in H; cbv beta iota in H; [|discriminate].
    unfold save_state in H.
    destruct sku as [|[|]| | | | |]; cbn [py_str] in H; cbv beta iota in H;
      try discriminate H; injection H as <-; cbn [db set_db]; rewrite Hd;
      eexists _, _; (split; [discriminate|]); (split; [reflexivity|]);
      (split; [|reflexivity]); reflexivity.
  - (* skipped *)
    left. split; [reflexivity|].
    unfold try_sync, bindM in H. unfold get_state in H.
    destruct sku as [|[|]| | | | |]; cbn [py_str] in H; cbv beta iota in H;
      try (destruct (send_product_db c product true w) as ([r|e1] & w1 & E1 & Hd);
           rewrite E1 in H; cbv beta iota in H; discriminate H);
      try discriminate H;
      match type of H with context [table_get ?k (db w)] =>
        destruct (table_get k (db w)) as [st|] eqn:Et;
        [ destruct (String.eqb (content_hash st) new_hash) eqn:Eh;
          [ injection H as <-; split; [reflexivity|];
            exists k, st; repeat split; try discriminate; try assumption;
            now apply String.eqb_eq
          | destruct (send_product_db c product false w) as ([r|e1] & w1 & E1 & Hd);
            rewrite E1 in H; cbv beta iota in H; try discriminate H;
            unfold save_state in H; cbn [py_str] in H; discriminate H ]
        | destruct (send_product_db c product true w) as ([r|e1] & w1 & E1 & Hd);
          rewrite E1 in H; cbv beta iota in H; try discriminate H;
          unfold save_state in H; cbn [py_str] in H; discriminate H ]
      end.
  - right. right. exists e. split; [reflexivity|]. eapply try_sync_raise_db; eassumption.
Qed.



Lemma sync_one_other_key (c : EshopClient.client) (product : pydict) (k : string)
    (n n' : summary) (w w' : world) :
  db_key product <> Some k ->
  sync_one c product n w = (Ok n', w') ->
  table_get k (db w') = table_get k (db w).
Proof.
  intros Hk H. unfold sync_one, EshopClient.product_sku, bindM in H.
  unfold db_key in Hk.
  destruct (dict_get "sku" product) as [sku|]; [|discriminate H].
  unfold ret in H.
  destruct (try_sync c sku product (Transformer.compute_hash product) w)
    as [result w1] eqn:E.
  assert (w1 = w') as -> by (destruct result as [[|]|]; now injection H).
  destruct (try_sync_cases _ _ _ _ _ _ _ E)
    as [(_ & -> & _) | [(_ & k' & st & Hn & Hs & _ & ->) | (e & _ & ->)]];
    try reflexivity.
  apply table_get_put_other. intros <-. apply Hk.
  destruct sku; try exact Hs. congruence.
Qed.

Lemma sync_loop_other_keys (c : EshopClient.client) (k : string) (products : list pydict) :
  forall n n' w w',
    Forall (fun q => db_key q <> Some k) products ->
    sync_loop c products n w = (Ok n', w') ->
    table_get k (db w') = table_get k (db w).
Proof.
  induction products as [|p products IH]; intros n n' w w' Hall H.
  - cbn in H. now injection H as _ <-.
  - inversion Hall as [|? ? Hp Hall']; subst.
    cbn [sync_loop] in H. unfold bindM in H.
    destruct (sync_one c p n w) as [[n1|e1] w1] eqn:E1; [|discriminate H].
    rewrite (IH _ _ _ _ Hall' H). eapply sync_one_other_key; eassumption.
Qed.



Lemma db_key_sku (p : pydict) (k : string) :
  db_key p = Some k ->
  exists sku, dict_get "sku" p = Some sku /\ sku <> VNone /\ py_str sku = Some k.
Proof.
  unfold db_key. destruct (dict_get "sku" p) as [sku|]; [|discriminate].
  intros H. exists sku. split; [reflexivity|].
  destruct sku; try discriminate H; split; try discriminate; exact H.
Qed.

Lemma get_state_found (sku : value) (k : string) (w : world) :
  sku <> VNone -> py_str sku = Some k ->
  get_state sku w = (Ok (table_get k (db w)), w).
Proof.
  intros Hn Hs. unfold get_state. rewrite Hs. destruct sku; congruence.
Qed.

(** A product whose row holds its hash is skipped, and nothing moves. *)
Lemma sync_one_synced (c : EshopClient.client) (p : pydict) (n : summary) (w : world) :
  synced (db w) p ->
  sync_one c p n w = (Ok (Summary (sent n) (skipped n + 1) (errors n)), w).
Proof.
  intros (k & st & Hk & Hget & Hh).
  destruct (db_key_sku p k Hk) as (sku & Hsku & Hn & Hs).
  unfold sync_one, EshopClient.product_sku, bindM. rewrite Hsku. unfold ret.
  unfold try_sync, bindM. rewrite (get_state_found sku k w Hn Hs), Hget.
  rewrite Hh, String.eqb_refl. reflexivity.
Qed.

Lemma sync_loop_synced (c : EshopClient.client) (products : list pydict) :
  forall n w,
    Forall (synced (db w)) products ->
    sync_loop c products n w
    = (Ok (Summary (sent n) (skipped n + Z.of_nat (List.length products)) (errors n)), w).
Proof.
  induction products as [|p products IH]; intros n w Hall.
  - cbn. rewrite Z.add_0_r. now destruct n.
  - inversion Hall as [|? ? Hp Hall']; subst.
    cbn [sync_loop]. unfold bindM. rewrite (sync_one_synced c p n w Hp).
    rewrite (IH _ _ Hall'). cbn [sent skipped errors List.length].
    rewrite Nat2Z.inj_succ. do 3 f_equal. lia.
Qed.

(** A step that does not fail leaves the row of the product in step with
    the product. *)
Lemma sync_one_leaves_synced (c : EshopClient.client) (p : pydict) (k : string)
    (n n' : summary) (w w' : world) :
  db_key p = Some k ->
  sync_one c p n w = (Ok n', w') -> errors n' = errors n ->
  synced (db w') p.
Proof.
  intros Hk H He.
  destruct (db_key_sku p k Hk) as (sku & Hsku & Hn & Hs).
  unfold sync_one, EshopClient.product_sku, bindM in H. rewrite Hsku in H.
  unfold ret in H.
  destruct (try_sync c sku p (Transformer.compute_hash p) w) as [result w1] eqn:E.
  destruct (try_sync_cases _ _ _ _ _ _ _ E)
    as [(-> & -> & k' & st & _ & Hs' & Hget & Hh)
       | [(-> & k' & st & _ & Hs' & Hh & Hdb) | (e & -> & _)]].
  - injection H as _ <-. exists k, st. replace k' with k in * by congruence. auto.
  - injection H as _ <-. exists k, st. replace k' with k in * by congruence.
    rewrite Hdb, table_get_put_same. auto.
  - injection H as <- _. cbn [errors] in He. lia.
Qed.

Lemma first_run_synced (c : EshopClient.client) (products : list pydict) :
  forall n n1 w w1,
    NoDup (map db_key products) ->
    Forall (fun p => db_key p <> None) products ->
    sync_loop c products n w = (Ok n1, w1) ->
    errors n1 = errors n ->
    Forall (synced (db w1)) products.
Proof.
  induction products as [|p products IH]; intros n n1 w w1 Hnd Hkeys H He;
    [constructor|].
  inversion Hnd as [|? ? Hnotin Hnd']; subst.
  inversion Hkeys as [|? ? Hp Hkeys']; subst.
  destruct (db_key p) as [k|] eqn:Hk; [|congruence].
  assert (Hsku_p : has_sku p).
  { destruct (db_key_sku p k Hk) as (sku & Hsku & _). now exists sku. }
  assert (Hsku_rest : Forall has_sku products).
  { eapply Forall_impl; [|exact Hkeys']. intros q Hq.
    destruct (db_key q) as [kq|] eqn:Hkq; [|congruence].
    destruct (db_key_sku q kq Hkq) as (sku & Hsku & _). now exists sku. }
  cbn [sync_loop] in H. unfold bindM in H.
  destruct (sync_one_total c p n w Hsku_p) as (n' & w' & E1 & _ & _ & _ & Hle1).
  rewrite E1 in H.
  destruct (sync_loop_total c products n' w' Hsku_rest) as (n2 & w2 & E2 & _ & _ & _ & Hle2).
  rewrite E2 in H. injection H as -> ->.
  assert (He1 : errors n' = errors n) by lia.
  assert (He2 : errors n1 = errors n') by lia.
  constructor.
  - destruct (sync_one_leaves_synced c p k n n' w w' Hk E1 He1) as (k0 & st & Hk0 & Hget & Hh).
    exists k0, st. repeat split; auto.
    replace k0 with k in * by congruence.
    rewrite <- Hget. eapply sync_loop_other_keys; [|exact E2].
    apply Forall_forall. intros q Hq Hkq. apply Hnotin.
    rewrite <- Hkq. now apply in_map.
  - eapply IH; eauto.
Qed.

(** What does hold of a second run: when the products of the batch have
    distinct keys and none failed in the first run, a second run over the
    same products skips every one of them without asking anything of the
    service. *)
Lemma second_run_skips_all (c c' : EshopClient.client) (products : list pydict)
    (n n1 m : summary) (w w1 w2 : world) :
  NoDup (map db_key products) ->
  Forall (fun p => db_key p <> None) products ->
  sync_loop c products n w = (Ok n1, w1) ->
  errors n1 = errors n ->
  db w2 = db w1 ->
  sync_loop c' products m w2
  = (Ok (Summary (sent m) (skipped m + Z.of_nat (List.length products)) (errors m)), w2).
Proof.
  intros Hnd Hkeys H He Hdb.
  apply sync_loop_synced. rewrite Hdb. eapply first_run_synced; eassumption.
Qed.




(** The runs of the tests: an error of the service on one record does not
    stop the other. *)
Example api_error_does_not_abort :
  fst (sync_products_task two_records (fresh_world [server_error; created]))
  = Ok (Summary 1 0 1).
Proof. vm_compute. reflexivity. Qed.

(** C3 fails on the code.  A record without identifier gets the sku
    "<unknown>", which a record may also carry as its identifier; the
    two are different records for [load_erp_data] and one row for the
    task.  Every send of the first run succeeds, and the second run over
    the same data sends both again. *)
Theorem unknown_sku_resent_every_run :
  let first := sync_products_task unknown_pair (fresh_world [created; created]) in
  let second :=
    sync_products_task unknown_pair (set_script [created; created] (snd first)) in
  fst first = Ok (Summary 2 0 0) /\
  fst second = Ok (Summary 2 0 0) /\
  attempts (trace (snd second)) = 4%nat.
Proof. vm_compute. repeat split. Qed.

(** Unchanged data with distinct identifiers: the second run skips. *)
Example second_run_skips :
  fst (sync_products_task two_records
         (set_script [] (snd (sync_products_task two_records
                                (fresh_world [created; created])))))
  = Ok (Summary 0 2 0).
Proof. vm_compute. reflexivity. Qed.

End Orchestrator.

(** * Further properties

    What the code does beyond the properties above. *)

(** ** The transformer *)

Section TransformerMore.
Import Transformer.


(** X1.  [transform_product] drops a record exactly when its price is
    missing or null, or is a number below zero. *)
Theorem transform_product_drops_exactly (raw : pydict) :
  transform_product raw = Ok None <->
  (dict_get_none "price_vat_excl" raw = VNone \/
   exists q, as_number (dict_get_none "price_vat_excl" raw) = Some q /\ (q < 0)%Q).
Proof.
  unfold transform_product. split.
  - intros H.
    destruct (dict_get_none "price_vat_excl" raw) eqn:Ep; [now left|..];
      right;
      (unfold lt_zero in H;
       destruct (as_number _) as [x|] eqn:En; cbn [bind] in H; [|discriminate];
       exists x; split; [reflexivity|];
       destruct (Qcompare x 0) eqn:Ec; [| now apply Qlt_alt |];
       exfalso;
       (destruct (values_of _); cbn [bind] in H; [|discriminate];
        rewrite sum_stock_total in H; cbn [bind] in H;
        destruct (get_of _ _); cbn [bind] in H; [|discriminate];
        destruct (with_vat _); cbn [bind] in H; discriminate)).
  - intros [-> | (q & Hn & Hq)]; [reflexivity|].
    assert (Hl : lt_zero (dict_get_none "price_vat_excl" raw) = Ok true).
    { unfold lt_zero. rewrite Hn.
      destruct (Qcompare q 0) eqn:E; [exfalso | reflexivity | exfalso].
      - apply Qeq_alt in E. rewrite E in Hq. now apply Qlt_irrefl in Hq.
      - apply Qgt_alt in E. apply (Qlt_irrefl q). now apply Qlt_trans with 0%Q. }
    destruct (dict_get_none "price_vat_excl" raw); try discriminate Hn;
      rewrite Hl; reflexivity.
Qed.



(** X3.  Only the sum of the location quantities reaches the product:
    two records that differ in nothing but how the same total stock is
    spread over locations transform alike. *)
Theorem stock_split_is_invisible (raw1 raw2 stocks1 stocks2 : pydict) :
  dict_get "stocks" raw1 = Some (VDict stocks1) ->
  dict_get "stocks" raw2 = Some (VDict stocks2) ->
  total (map quantity (dict_values stocks1)) = total (map quantity (dict_values stocks2)) ->
  (forall k, k <> "stocks" -> dict_get k raw1 = dict_get k raw2) ->
  transform_product raw1 = transform_product raw2.
Proof.
  intros H1 H2 Ht Hk.
  assert (Hv : forall raw stocks,
             dict_get "stocks" raw = Some (VDict stocks) ->
             values_of (py_or (dict_get_none "stocks" raw) (VDict []))
             = Ok (dict_values stocks)).
  { intros raw stocks Hs. unfold dict_get_none, dict_get_default. rewrite Hs.
    destruct stocks; reflexivity. }
  unfold transform_product.
  rewrite (Hv _ _ H1), (Hv _ _ H2).
  unfold dict_get_none, dict_get_default.
  rewrite (Hk "id"), (Hk "price_vat_excl"), (Hk "attributes"), (Hk "title")
    by discriminate.
  cbn [bind]. rewrite !sum_stock_total, Ht. reflexivity.
Qed.

Lemma stock_split_is_invisible_witness :
  transform_product
    [ ("id", VStr "SKU-001"); ("price_vat_excl", VInt 10);
      ("stocks", VDict [("praha", VInt 5); ("brno", VInt 3)]) ]
  = transform_product
      [ ("id", VStr "SKU-001"); ("price_vat_excl", VInt 10);
        ("stocks", VDict [("ostrava", VStr "8")]) ].
Proof.
  apply (stock_split_is_invisible _ _ [("praha", VInt 5); ("brno", VInt 3)]
                                  [("ostrava", VStr "8")]).
  - reflexivity.
  - reflexivity.
  - reflexivity.
  - intros k Hk. cbn.
    destruct (String.eqb k "id"); [reflexivity|].
    destruct (String.eqb k "price_vat_excl"); [reflexivity|].
    destruct (String.eqb k "stocks") eqn:E; [|reflexivity].
    apply String.eqb_eq in E. contradiction.
Defined.


Lemma key_in_app (k : pykey) (s1 s2 : list (pykey * pydict)) :
  key_in k (s1 ++ s2) = key_in k s1 || key_in k s2.
Proof. unfold key_in. apply existsb_app. Qed.

(** Records with distinct identifiers, none seen before, are all taken. *)
Lemma dedup_loop_distinct (records : list pydict) (ks : list pykey) :
  Forall2 (fun r k => record_key r = Ok k) records ks ->
  forall seen,
    NoDup ks -> (forall k, In k ks -> key_in k seen = false) ->
    dedup_loop records seen = Ok (seen ++ combine ks records)%list.
Proof.
  induction 1 as [|r k records ks Hk _ IH]; intros seen Hnd Hseen.
  - cbn. now rewrite app_nil_r.
  - inversion Hnd as [|? ? Hnotin Hnd']; subst.
    cbn [dedup_loop]. unfold record_key in Hk. rewrite Hk. cbn [bind].
    rewrite (Hseen k) by now left.
    rewrite IH; [now rewrite <- app_assoc | assumption |].
    intros k' Hin. rewrite key_in_app, (Hseen k') by now right.
    cbn. rewrite orb_false_r.
    apply pykey_eqb_neq. intros ->. contradiction.
Qed.

Lemma combine_keys_records (records : list pydict) (ks : list pykey) :
  Forall2 (fun r k => record_key r = Ok k) records ks ->
  map snd (combine ks records) = records.
Proof. induction 1; cbn; congruence. Qed.

Lemma subseq_length {A : Type} (l l' : list A) :
  subseq l l' -> (List.length l <= List.length l')%nat.
Proof. induction 1; cbn; lia. Qed.

(** X5.  A batch whose records all have hashable, pairwise different
    identifiers comes back from [load_erp_data] as it is. *)
Theorem load_erp_data_keeps_distinct (raw_list : list pydict) (ks : list pykey) :
  Forall2 (fun r k => record_key r = Ok k) raw_list ks ->
  NoDup ks ->
  load_erp_data raw_list = Ok raw_list.
Proof.
  intros Hk Hnd. unfold load_erp_data.
  rewrite (dedup_loop_distinct raw_list ks Hk []) by (assumption || reflexivity).
  cbn. now rewrite combine_keys_records.
Qed.

Lemma load_erp_data_keeps_distinct_witness :
  load_erp_data [espresso; mlynek] = Ok [espresso; mlynek].
Proof.
  apply (load_erp_data_keeps_distinct [espresso; mlynek] [KStr "SKU-001"; KStr "SKU-003"]).
  - repeat constructor.
  - repeat constructor; cbn; intuition discriminate.
Defined.

(** Deduplication only leaves records out. *)
Lemma load_erp_data_length (raw_list out : list pydict) :
  load_erp_data raw_list = Ok out ->
  (List.length out <= List.length raw_list)%nat.
Proof.
  unfold load_erp_data. intros H.
  destruct (dedup_loop raw_list []) as [seen|] eqn:Hloop; cbn [bind] in H; [|discriminate].
  injection H as <-.
  destruct (dedup_loop_grows _ _ _ Hloop) as (added & Hout & Hsub & _).
  cbn in Hout. subst added. now apply subseq_length.
Qed.

(** X6.  What [load_erp_data] returns is never longer than the batch,
    and loading it again changes nothing. *)
Theorem load_erp_data_idempotent (raw_list out : list pydict) :
  load_erp_data raw_list = Ok out ->
  (List.length out <= List.length raw_list)%nat /\
  load_erp_data out = Ok out.
Proof.
  intros H. split; [now apply load_erp_data_length|].
  unfold load_erp_data in H.
  destruct (dedup_loop raw_list []) as [seen|] eqn:Hloop; cbn [bind] in H; [|discriminate].
  injection H as <-.
  destruct (dedup_loop_grows _ _ _ Hloop) as (added & Hout & _ & Hnd & Hkeys & _).
  cbn in Hout. subst added.
  assert (Hk : Forall2 (fun r k => record_key r = Ok k) (map snd seen) (map fst seen))
    by (clear -Hkeys; induction Hkeys; cbn; constructor; auto).
  unfold load_erp_data.
  rewrite (dedup_loop_distinct (map snd seen) (map fst seen) Hk []);
    [| apply Hnd; constructor | reflexivity].
  cbn. now rewrite combine_keys_records.
Qed.

Lemma load_erp_data_idempotent_witness :
  (List.length [dup_bad] <= List.length [dup_bad; dup_good])%nat /\
  load_erp_data [dup_bad] = Ok [dup_bad].
Proof.
  apply (load_erp_data_idempotent [dup_bad; dup_good] [dup_bad]). reflexivity.
Defined.

Lemma to_key_raises (v : value) (e : exn) :
  to_key v = Raise e <-> e = TypeError /\ unhashable v.
Proof.
  destruct v; cbn; split; try discriminate; try solve [intros [_ []]].
  - intros [= <-]. auto.
  - now intros [-> _].
  - intros [= <-]. auto.
  - now intros [-> _].
Qed.

Lemma dedup_loop_raises (raw_list : list pydict) (e : exn) :
  forall seen,
    dedup_loop raw_list seen = Raise e <->
    e = TypeError /\ Exists (fun r => unhashable (dict_get_none "id" r)) raw_list.
Proof.
  induction raw_list as [|item rest IH]; intros seen; cbn [dedup_loop].
  - split; [discriminate | intros [_ H]; inversion H].
  - destruct (to_key (dict_get_none "id" item)) as [k|e0] eqn:Ek; cbn [bind].
    + assert (Hh : ~ unhashable (dict_get_none "id" item)).
      { intros Hu. assert (to_key (dict_get_none "id" item) = Raise TypeError)
          by (apply to_key_raises; auto). congruence. }
      destruct (key_in k seen); rewrite IH; split; intros [He Hex]; split; auto;
        try (now constructor 2);
        inversion Hex; subst; [contradiction | assumption | contradiction | assumption].
    + apply to_key_raises in Ek. destruct Ek as [-> Hu]. split.
      * intros [= <-]. split; [reflexivity | now constructor].
      * now intros [-> _].
Qed.

(** X7.  [load_erp_data] fails exactly when some record of the batch
    has a [list] or a [dict] for identifier, and then with [TypeError];
    duplicates and missing identifiers never make it fail. *)
Theorem load_erp_data_raises_exactly (raw_list : list pydict) (e : exn) :
  load_erp_data raw_list = Raise e <->
  e = TypeError /\ Exists (fun r => unhashable (dict_get_none "id" r)) raw_list.
Proof.
  rewrite <- (dedup_loop_raises raw_list e []). unfold load_erp_data.
  destruct (dedup_loop raw_list []); cbn [bind]; split; congruence.
Qed.

Lemma transform_all_kept (records : list pydict) :
  forall acc,
    Forall (fun r => exists o, transform_product r = Ok o) records ->
    transform_all records acc = Ok (acc ++ kept_products records)%list.
Proof.
  induction records as [|r records IH]; intros acc Hall; cbn.
  - now rewrite app_nil_r.
  - inversion Hall as [|? ? [o Ho] Hall']; subst. rewrite Ho. cbn [bind].
    destruct o as [p|]; rewrite IH by assumption; [|reflexivity].
    now rewrite <- app_assoc.
Qed.

Lemma transform_all_ok (records : list pydict) :
  forall acc out,
    transform_all records acc = Ok out ->
    Forall (fun r => exists o, transform_product r = Ok o) records.
Proof.
  induction records as [|r records IH]; intros acc out H; [constructor|].
  cbn in H. destruct (transform_product r) as [o|e] eqn:Ho; cbn [bind] in H; [|discriminate].
  constructor; [eauto|]. destruct o; eapply IH; eassumption.
Qed.

Lemma kept_products_length (records : list pydict) :
  (List.length (kept_products records) <= List.length records)%nat.
Proof.
  unfold kept_products.
  induction records as [|r records IH]; cbn [flat_map]; [cbn; lia|].
  rewrite length_app.
  destruct (transform_product r) as [[p|]|]; cbn [List.length]; lia.
Qed.

(** X8.  [load_and_transform] returns exactly when the batch loads and
    [transform_product] raises on none of the records kept; what it
    returns is then the products of the kept records that are not
    dropped, in the order of the records, and never more than the batch
    has records. *)
Theorem load_and_transform_in_order (raw_list out : list pydict) :
  load_and_transform raw_list = Ok out <->
  exists records,
    load_erp_data raw_list = Ok records /\
    Forall (fun r => exists o, transform_product r = Ok o) records /\
    out = kept_products records /\
    (List.length out <= List.length raw_list)%nat.
Proof.
  unfold load_and_transform. split.
  - intros H.
    destruct (load_erp_data raw_list) as [records|] eqn:Hl; cbn [bind] in H; [|discriminate].
    exists records. split; [reflexivity|].
    pose proof (transform_all_ok _ _ _ H) as Hall. split; [exact Hall|].
    rewrite (transform_all_kept records [] Hall) in H. injection H as <-.
    cbn [app]. split; [reflexivity|].
    pose proof (load_erp_data_length _ _ Hl) as Hlen.
    pose proof (kept_products_length records). lia.
  - intros (records & -> & Hall & -> & _). cbn [bind].
    now rewrite (transform_all_kept records [] Hall).
Qed.
End TransformerMore.

(** ** The client *)

Section ClientMore.
Import EshopClient.

Lemma list_ascii_of_string_app (s t : string) :
  list_ascii_of_string (s ++ t) = (list_ascii_of_string s ++ list_ascii_of_string t)%list.
Proof. induction s as [|c s IH]; cbn; [reflexivity | now rewrite IH]. Qed.

Lemma string_of_list_ascii_app (l m : list ascii) :
  string_of_list_ascii (l ++ m) = string_of_list_ascii l ++ string_of_list_ascii m.
Proof. induction l as [|c l IH]; cbn; [reflexivity | now rewrite IH]. Qed.

(** X9.  The base URL of a client never ends with a slash, however many
    the configured one ends with; a configured URL that does not end
    with a slash is kept as it is; and one more slash at the end of the
    configured URL gives the same client. *)
Theorem base_url_normalised (url key : string) (w : world) :
  (exists c w',
      init url key w = (Ok c, w') /\
      ~ ends_with_slash (_base_url c) /\
      (~ ends_with_slash url -> _base_url c = url)) /\
  init (url ++ "/") key w = init url key w.
Proof.
  assert (Hdrop : forall l c r,
             (fix drop (cs : list ascii) : list ascii :=
                match cs with
                | [] => []
                | c :: cs' => if Ascii.eqb c "/" then drop cs' else cs
                end) l = c :: r -> c <> "/"%char).
  { induction l as [|a l IH]; intros c r; cbn; [discriminate|].
    destruct (Ascii.eqb a "/") eqn:E; [apply IH|].
    intros [= <- _]. now apply Ascii.eqb_neq. }
  split.
  - eexists _, _. split; [reflexivity|]. cbn [_base_url]. unfold rstrip_slash. split.
    + intros [t Ht].
      apply (f_equal list_ascii_of_string) in Ht.
      rewrite list_ascii_of_string_of_list_ascii, list_ascii_of_string_app in Ht.
      apply (f_equal (@rev ascii)) in Ht.
      rewrite rev_involutive, rev_app_distr in Ht. cbn [list_ascii_of_string rev app] in Ht.
      now apply Hdrop in Ht.
    + intros Hno.
      destruct (rev (list_ascii_of_string url)) as [|c r] eqn:Er.
      * apply (f_equal (@rev ascii)) in Er. rewrite rev_involutive in Er.
        cbn in Er. rewrite <- (string_of_list_ascii_of_string url). now rewrite Er.
      * destruct (Ascii.eqb c "/") eqn:E.
        -- exfalso. apply Hno. apply Ascii.eqb_eq in E. subst c.
           exists (string_of_list_ascii (rev r)).
           apply (f_equal (@rev ascii)) in Er. rewrite rev_involutive in Er. cbn in Er.
           rewrite <- (string_of_list_ascii_of_string url), Er.
           now rewrite string_of_list_ascii_app.
        -- rewrite <- Er, rev_involutive. apply string_of_list_ascii_of_string.
  - unfold init, rstrip_slash.
    rewrite list_ascii_of_string_app, rev_app_distr. reflexivity.
Qed.

Lemma base_url_normalised_witness :
  exists c w',
    init "https://api.fake-eshop.cz/v1" "symma-secret-token" (fresh_world []) = (Ok c, w') /\
    _base_url c = "https://api.fake-eshop.cz/v1".
Proof.
  destruct (proj1 (base_url_normalised "https://api.fake-eshop.cz/v1" "symma-secret-token"
                                       (fresh_world [])))
    as (c & w' & Hinit & _ & Hkept).
  exists c, w'. split; [exact Hinit|]. apply Hkept.
  intros [t Ht].
  apply (f_equal (fun s => rev (list_ascii_of_string s))) in Ht.
  rewrite list_ascii_of_string_app, rev_app_distr in Ht.
  cbn in Ht. discriminate Ht.
Defined.

(** A configured URL with a slash at its end. *)
Example trailing_slash_not_doubled :
  fst (init "https://api.fake-eshop.cz/v1/" "symma-secret-token" (fresh_world []))
  = Ok shop.
Proof. reflexivity. Qed.


Lemma requests_are_app (req : event) (l1 l2 : list event) :
  requests_are req l1 -> requests_are req l2 -> requests_are req (l1 ++ l2).
Proof. intros H1 H2. apply Forall_app. now split. Qed.

Lemma limiter_events_no_request (req : event) (evs : list event) :
  Forall limiter_event evs -> requests_are req evs.
Proof.
  intros H. eapply Forall_impl; [|exact H].
  intros e [d ->]. discriminate.
Qed.

(** All the loop asks of the service is the one request it was given. *)
Lemma retry_loop_requests (c : client) (method url : string) (payload : pydict)
    (n : nat) :
  forall b w,
  exists result w' evs,
    retry_loop n b c method url payload w = (result, w') /\
    trace w' = (trace w ++ evs)%list /\
    requests_are (Request method url (_api_key c) payload) evs.
Proof.
  induction n as [|n IH]; intros b w.
  - eexists _, w, []. cbn. rewrite app_nil_r. repeat split. constructor.
  - destruct (retry_loop_request n b c method url payload w)
      as (w1 & evs & Ht & Hev & Hd & Hcase).
    assert (Hreq : requests_are (Request method url (_api_key c) payload)
                     (evs ++ [Request method url (_api_key c) payload])).
    { apply requests_are_app; [now apply limiter_events_no_request|].
      constructor; [reflexivity | constructor]. }
    destruct (script w) as [|[lat r|lat e] rest]; destruct Hcase as [Hs ->].
    + eexists _, w1, _. repeat split; eassumption.
    + destruct (status_code r =? 429).
      * set (wait := match _parse_retry_after r with Some x => x | None => Fin b end).
        destruct (sleep_effect AtBackoff wait w1) as (res & w2 & Es & Ht2 & _ & _ & Hok & Hbad).
        unfold bindM. rewrite Es.
        assert (Hreq2 : requests_are (Request method url (_api_key c) payload)
                          ((evs ++ [Request method url (_api_key c) payload])
                             ++ [Sleep AtBackoff wait])).
        { apply requests_are_app; [exact Hreq|].
          constructor; [discriminate | constructor]. }
        destruct res as [[]|e].
        -- destruct (IH (fl (b * 2)) w2) as (res3 & w3 & evs3 & E3 & Ht3 & Hr3).
           rewrite E3. eexists _, w3, _. split; [reflexivity|]. split.
           ++ rewrite Ht3, Ht2, Ht, <- !app_assoc. reflexivity.
           ++ rewrite !app_assoc. apply requests_are_app; [|exact Hr3].
              rewrite <- !app_assoc. rewrite <- app_assoc in Hreq2. exact Hreq2.
        -- eexists _, w2, _. split; [reflexivity|]. split.
           ++ rewrite Ht2, Ht, <- !app_assoc. reflexivity.
           ++ rewrite <- app_assoc in Hreq2. exact Hreq2.
      * unfold bindM, raise_for_status.
        destruct ((400 <=? status_code r) && (status_code r <? 600));
          eexists _, w1, _; repeat split; eassumption.
    + eexists _, w1, _. repeat split; eassumption.
Qed.

(** X10.  [send_product] asks for nothing but what it is told to send:
    for a new product every request is a POST of the product to the
    collection URL, for a known one a PATCH to the URL of its sku, each
    with the API key of the client; a product without sku raises
    [KeyError] before anything is asked. *)
Theorem send_product_routes (c : client) (product : pydict) (w : world) :
  (forall sku,
      dict_get "sku" product = Some sku ->
      exists result w' evs,
        send_product c product true w = (result, w') /\
        trace w' = (trace w ++ evs)%list /\
        requests_are (Request "POST" (_base_url c ++ "/products/") (_api_key c) product)
                     evs) /\
  (forall sku s,
      dict_get "sku" product = Some sku -> py_str sku = Some s ->
      exists result w' evs,
        send_product c product false w = (result, w') /\
        trace w' = (trace w ++ evs)%list /\
        requests_are (Request "PATCH" (_base_url c ++ "/products/" ++ s ++ "/")
                              (_api_key c) product) evs) /\
  (dict_get "sku" product = None ->
   forall is_new, send_product c product is_new w = (Raise KeyError, w)).
Proof.
  unfold send_product, product_sku, bindM. split; [|split].
  - intros sku ->. cbn [ret].
    apply (retry_loop_requests c "POST" (_base_url c ++ "/products/") product 3 1 w).
  - intros sku s -> Hs. cbn [ret]. rewrite Hs.
    apply (retry_loop_requests c "PATCH" (_base_url c ++ "/products/" ++ s ++ "/")
                               product 3 1 w).
  - intros -> is_new. reflexivity.
Qed.

Lemma send_product_routes_witness :
  exists result w' evs,
    send_product shop kavovar false (fresh_world [created]) = (result, w') /\
    trace w' = (trace (fresh_world [created]) ++ evs)%list /\
    requests_are (Request "PATCH" (_base_url shop ++ "/products/" ++ "SKU-001" ++ "/")
                          (_api_key shop) kavovar) evs.
Proof.
  apply (proj1 (proj2 (send_product_routes shop kavovar (fresh_world [created])))
               (VStr "SKU-001") "SKU-001"); reflexivity.
Defined.

(** X11.  A failure of the transport is not retried: when the request
    itself raises, or the service is not there, the loop lets the
    exception out after that one attempt, without a backoff wait. *)
Theorem transport_failure_not_retried (c : client) (method url : string)
    (payload : pydict) (w : world) :
  (forall lat e rest,
      script w = Failure lat e :: rest ->
      exists w',
        _request_with_retry c method url payload w = (Raise e, w') /\
        attempts (trace w') = S (attempts (trace w)) /\
        backoff_waits (trace w') = backoff_waits (trace w) /\
        script w' = rest) /\
  (script w = [] ->
   exists w',
     _request_with_retry c method url payload w = (Raise ConnectionError, w') /\
     attempts (trace w') = S (attempts (trace w)) /\
     backoff_waits (trace w') = backoff_waits (trace w)).
Proof.
  destruct (retry_loop_request 2 1 c method url payload w)
    as (w1 & evs & Ht & Hev & Hd & Hcase).
  destruct (limiter_events_silent _ Hev) as [Hat Hbw].
  assert (Ha : attempts (trace w1) = S (attempts (trace w))).
  { rewrite Ht, !attempts_app, Hat. cbn. lia. }
  assert (Hb : backoff_waits (trace w1) = backoff_waits (trace w)).
  { rewrite Ht, !backoff_waits_app, Hbw. cbn. now rewrite app_nil_r. }
  split.
  - intros lat e rest Hs. rewrite Hs in Hcase. destruct Hcase as [Hs1 E].
    exists w1. auto.
  - intros Hs. rewrite Hs in Hcase. destruct Hcase as [Hs1 E].
    exists w1. auto.
Qed.

Lemma transport_failure_not_retried_witness :
  exists w',
    _request_with_retry shop "POST" "https://api.fake-eshop.cz/v1/products/" kavovar
                        (fresh_world []) = (Raise ConnectionError, w') /\
    attempts (trace w') = S (attempts (trace (fresh_world []))) /\
    backoff_waits (trace w') = backoff_waits (trace (fresh_world [])).
Proof.
  apply (proj2 (transport_failure_not_retried
                  shop "POST" "https://api.fake-eshop.cz/v1/products/" kavovar
                  (fresh_world []))).
  reflexivity.
Defined.

(** X12.  Three 429 answers without Retry-After header: the loop waits
    1.0, 2.0 and, after the last attempt too, 4.0, and only then raises
    the error of exhausted retries; nothing of the script beyond the
    three answers is used. *)
Theorem backoff_slept_after_last_attempt (c : client) (method url : string)
    (payload : pydict) (w : world) (l1 l2 l3 : Q) (r1 r2 r3 : response)
    (rest : list exchange) :
  script w = Reply l1 r1 :: Reply l2 r2 :: Reply l3 r3 :: rest ->
  status_code r1 = 429 -> status_code r2 = 429 -> status_code r3 = 429 ->
  header_get "Retry-After" (headers r1) = None ->
  header_get "Retry-After" (headers r2) = None ->
  header_get "Retry-After" (headers r3) = None ->
  exists w',
    _request_with_retry c method url payload w
    = (Raise (RuntimeError (rate_limit_message method url)), w') /\
    backoff_waits (trace w') = (backoff_waits (trace w) ++ [Fin 1; Fin 2; Fin 4])%list /\
    attempts (trace w') = (attempts (trace w) + 3)%nat.
Proof.
  intros Hs H1 H2 H3 N1 N2 N3.
  assert (W1 : expected_wait 0 r1 = Fin 1) by (unfold expected_wait; now rewrite N1).
  assert (W2 : expected_wait 1 r2 = Fin 2) by (unfold expected_wait; now rewrite N2).
  assert (W3 : expected_wait 2 r3 = Fin 4) by (unfold expected_wait; now rewrite N3).
  destruct (throttled_thrice_exhausted c method url payload w l1 l2 l3 r1 r2 r3 rest
              Hs H1 H2 H3) as (w' & E & Ha);
    [now rewrite W1 | now rewrite W2 | now rewrite W3 |].
  exists w'. split; [exact E|]. split; [|exact Ha].
  destruct (retry_loop_trace c method url payload 3 1 w) as (res & w2 & E2 & Hb & _ & _).
  unfold _request_with_retry, MAX_RETRIES in E. rewrite E in E2. injection E2 as _ <-.
  rewrite Hb. f_equal.
  rewrite (waits_from_expected 3 0) by lia. rewrite Hs.
  cbn [expected_waits]. rewrite H1, H2, H3, W1, W2, W3. reflexivity.
Qed.

Lemma backoff_slept_after_last_attempt_witness :
  exists w',
    _request_with_retry shop "POST" "https://api.fake-eshop.cz/v1/products/" kavovar
                        (fresh_world [throttled; throttled; throttled; created])
    = (Raise (RuntimeError
                (rate_limit_message "POST" "https://api.fake-eshop.cz/v1/products/")), w') /\
    backoff_waits (trace w')
    = (backoff_waits (trace (fresh_world [throttled; throttled; throttled; created]))
         ++ [Fin 1; Fin 2; Fin 4])%list /\
    attempts (trace w')
    = (attempts (trace (fresh_world [throttled; throttled; throttled; created])) + 3)%nat.
Proof.
  apply (backoff_slept_after_last_attempt
           shop "POST" "https://api.fake-eshop.cz/v1/products/" kavovar
           (fresh_world [throttled; throttled; throttled; created])
           0%Q 0%Q 0%Q (Response 429 [] "") (Response 429 [] "") (Response 429 [] "")
           [created]); reflexivity.
Defined.

Lemma nonneg_sleepable (b : Q) : (0 <= b)%Q -> sleepable (Fin b) = true.
Proof.
  intros H. unfold sleepable, is_negative.
  destruct (Qcompare b 0) eqn:E; try reflexivity.
  apply Qlt_alt in E. exfalso. now apply (Qlt_not_le _ _ E).
Qed.

(** After any number of 429 answers that leaves an attempt, the answer
    that is not a 429 ends the loop. *)
Lemma retry_loop_final_answer (c : client) (method url : string) (payload : pydict)
    (lat : Q) (r : response) (rest : list exchange) (prefix : list exchange) :
  status_code r <> 429 ->
  Forall throttles prefix ->
  forall n b w,
    (0 <= b)%Q -> (List.length prefix < n)%nat ->
    script w = (prefix ++ Reply lat r :: rest)%list ->
    exists w',
      retry_loop n b c method url payload w
      = (if (400 <=? status_code r) && (status_code r <? 600)
         then Raise (HTTPError (status_code r) (text r))
         else Ok r, w') /\
      attempts (trace w') = (attempts (trace w) + S (List.length prefix))%nat /\
      script w' = rest.
Proof.
  intros Hne. induction 1 as [|x prefix (l0 & r0 & -> & H429 & Hok) _ IH];
    intros n b w Hb Hn Hs; (destruct n as [|n]; [cbn in Hn; lia|]).
  - cbn [app] in Hs.
    destruct ((400 <=? status_code r) && (status_code r <? 600)) eqn:Hr.
    + destruct (retry_loop_request n b c method url payload w)
        as (w1 & evs & Ht & Hev & Hd & Hcase).
      rewrite Hs in Hcase. destruct Hcase as [Hs1 E].
      destruct (limiter_events_silent _ Hev) as [Hat _].
      exists w1. rewrite E.
      apply Z.eqb_neq in Hne. rewrite Hne.
      unfold bindM, raise_for_status. rewrite Hr. cbn [raise].
      split; [reflexivity|]. rewrite Ht, !attempts_app, Hat. cbn. split; [lia | exact Hs1].
    + destruct (success_returned_at_once c method url payload w lat r rest n b Hs)
        as (w' & E & Ha & _ & Hs').
      { apply andb_false_iff in Hr.
        destruct Hr as [Hr|Hr]; [left; apply Z.leb_gt in Hr | right; apply Z.ltb_ge in Hr]; lia. }
      exists w'. cbn [List.length]. repeat split; [exact E | lia | exact Hs'].
  - cbn [app] in Hs.
    destruct (throttled_goes_on c method url payload w l0 r0 _ n b Hs H429)
      as (w1 & E1 & A1 & Hs1).
    { unfold retry_after_ok in Hok.
      destruct (_parse_retry_after r0); [exact Hok | now apply nonneg_sleepable]. }
    destruct (IH n (fl (b * 2)) w1) as (w' & E & Ha & Hs'); try assumption.
    + apply fl_nonneg. apply Qmult_le_0_compat; [exact Hb | discriminate].
    + cbn in Hn. lia.
    + exists w'. rewrite E1. split; [exact E|]. cbn [List.length]. split; [lia | exact Hs'].
Qed.

(** X13.  Whatever comes back on the first, second or third attempt
    that is not a 429 settles the call, the attempts before having been
    throttled: a success is returned, an error status is raised as
    [HTTPError], and the number of attempts is the number of 429s plus
    one. *)
Theorem first_final_answer_settles (c : client) (method url : string)
    (payload : pydict) (w : world) (prefix : list exchange) (lat : Q) (r : response)
    (rest : list exchange) :
  script w = (prefix ++ Reply lat r :: rest)%list ->
  Forall throttles prefix -> (List.length prefix < 3)%nat ->
  status_code r <> 429 ->
  exists w',
    _request_with_retry c method url payload w
    = (if (400 <=? status_code r) && (status_code r <? 600)
       then Raise (HTTPError (status_code r) (text r))
       else Ok r, w') /\
    attempts (trace w') = (attempts (trace w) + S (List.length prefix))%nat /\
    script w' = rest.
Proof.
  intros Hs Hp Hlen Hne.
  apply (retry_loop_final_answer c method url payload lat r rest prefix Hne Hp 3 1 w);
    [discriminate | exact Hlen | exact Hs].
Qed.

Lemma first_final_answer_settles_witness :
  exists w',
    _request_with_retry shop "POST" "https://api.fake-eshop.cz/v1/products/" kavovar
                        (fresh_world [throttled_for "0"; throttled; created])
    = (Ok (Response 201 [] "{}"), w') /\
    attempts (trace w')
    = (attempts (trace (fresh_world [throttled_for "0"; throttled; created])) + 3)%nat /\
    script w' = [].
Proof.
  apply (first_final_answer_settles
           shop "POST" "https://api.fake-eshop.cz/v1/products/" kavovar
           (fresh_world [throttled_for "0"; throttled; created])
           [throttled_for "0"; throttled] 0%Q (Response 201 [] "{}") []).
  - reflexivity.
  - repeat constructor; eexists _, _; (split; [reflexivity|]); split; reflexivity.
  - cbn. lia.
  - cbn. lia.
Defined.

Lemma fl_zero (q : Q) : (q == 0)%Q -> fl q = 0%Q.
Proof.
  intros H. unfold fl. apply Qeq_alt in H. now rewrite H.
Qed.

(** X14.  A limiter built with a rate of 0 or less never lets a call
    through at once: every [acquire] sleeps for a positive time, and the
    token count it leaves is negative. *)
Theorem non_positive_rate_always_sleeps (w : world) (r : Z) :
  r <= 0 ->
  _rate (limiter w) = r -> _tokens (limiter w) <= 0 ->
  exists w' wait,
    acquire w = (Ok tt, w') /\ (0 < wait)%Q /\
    trace w' = (trace w ++ [Sleep AtLimiter (Fin wait)])%list /\
    limiter w' = MkRateLimiter r (r - 1) (Some (clock w')) /\
    _tokens (limiter w') < 0.
Proof.
  intros Hr Hrate Htok.
  destruct (window_expired (clock w) (limiter w)) eqn:He.
  - (* a new window, empty from the start *)
    assert (Hk : (0 <? r) = false) by (apply Z.ltb_ge; lia).
    assert (Hp : is_positive (fl (1 - fl (clock w - clock w))) = true).
    { apply remaining_wait_positive. now rewrite (fl_zero (clock w - clock w)) by ring. }
    assert (Hwait : (0 < fl (1 - fl (clock w - clock w)))%Q).
    { unfold is_positive in Hp.
      destruct (Qcompare (fl (1 - fl (clock w - clock w))) 0) eqn:E; try discriminate.
      now apply Qgt_alt. }
    unfold acquire. rewrite He. cbn [_tokens _rate _window_start]. rewrite Hrate, Hk, Hp.
    unfold sleep. rewrite (positive_not_negative _ Hp).
    eexists _, _. split; [reflexivity|]. split; [exact Hwait|].
    cbn. repeat split. lia.
  - unfold window_expired in He.
    destruct (limiter w) as [r0 k [start|]] eqn:Hl; cbn in *; [|discriminate]. subst r0.
    destruct (acquire_exhausted w r k start Hl He Htok) as [Hpos Ea].
    rewrite Ea. eexists _, _. split; [reflexivity|].
    split; [exact Hpos|]. cbn. repeat split. lia.
Qed.

Lemma non_positive_rate_always_sleeps_witness :
  exists w' wait,
    acquire (World 0 [] [] (RateLimiter_init 0) []) = (Ok tt, w') /\ (0 < wait)%Q /\
    trace w' = ([] ++ [Sleep AtLimiter (Fin wait)])%list /\
    limiter w' = MkRateLimiter 0 (0 - 1) (Some (clock w')) /\
    _tokens (limiter w') < 0.
Proof.
  apply (non_positive_rate_always_sleeps (World 0 [] [] (RateLimiter_init 0) []) 0);
    cbn; lia.
Defined.

(** X15.  [acquire] always returns, whatever the state of the limiter,
    and keeps to itself: it never asks anything of the service, never
    touches the table, leaves the rate as it is, leaves a window open,
    and the clock does not go back. *)
Theorem acquire_keeps_to_itself (w : world) :
  exists w',
    acquire w = (Ok tt, w') /\
    attempts (trace w') = attempts (trace w) /\
    backoff_waits (trace w') = backoff_waits (trace w) /\
    script w' = script w /\ db w' = db w /\
    _rate (limiter w') = _rate (limiter w) /\
    _window_start (limiter w') <> None /\
    (clock w <= clock w')%Q.
Proof.
  unfold acquire.
  set (l1 := if window_expired (clock w) (limiter w) then _ else _).
  assert (Hrate : _rate l1 = _rate (limiter w)) by (unfold l1; now destruct window_expired).
  assert (Hwin : _window_start l1 <> None).
  { unfold l1, window_expired.
    destruct (_window_start (limiter w)) eqn:Ew; [|discriminate].
    destruct (Qle_bool _ _); [discriminate | now rewrite Ew]. }
  destruct (0 <? _tokens l1).
  - eexists. split; [reflexivity|]. cbn. repeat split; auto. apply Qle_refl.
  - set (wait := fl _).
    destruct (is_positive wait) eqn:Hp.
    + unfold sleep. rewrite (positive_not_negative _ Hp).
      eexists. split; [reflexivity|].
      cbn [trace script db limiter clock log set_clock set_limiter _rate _window_start].
      rewrite attempts_app, backoff_waits_app.
      change (attempts [Sleep AtLimiter (Fin wait)]) with 0%nat.
      change (backoff_waits [Sleep AtLimiter (Fin wait)]) with (@nil pyfloat).
      rewrite Nat.add_0_r, app_nil_r. repeat split; auto; try discriminate.
      unfold is_positive in Hp. destruct (Qcompare wait 0) eqn:E; try discriminate.
      apply Qgt_alt in E. rewrite <- (Qplus_0_r (clock w)) at 1.
      apply Qplus_le_r. now apply Qlt_le_weak.
    + eexists. split; [reflexivity|]. cbn. repeat split; auto; try discriminate.
      apply Qle_refl.
Qed.
End ClientMore.

(** ** The task *)

Section TaskMore.
Import Tasks.






Lemma dedup_loop_raises_load (raw_list : list pydict) :
  Exists (fun r => unhashable (dict_get_none "id" r)) raw_list ->
  Transformer.load_erp_data raw_list = Raise TypeError.
Proof.
  intros Hex. unfold Transformer.load_erp_data.
  destruct (Transformer.dedup_loop raw_list []) as [seen|e] eqn:E.
  - exfalso.
    assert (H : Transformer.dedup_loop raw_list [] = Raise TypeError)
      by (apply dedup_loop_raises; auto).
    congruence.
  - apply dedup_loop_raises in E. destruct E as [-> _]. reflexivity.
Qed.

Lemma transform_all_raises (records : list pydict) (r : pydict) (e0 : exn) :
  In r records -> Transformer.transform_product r = Raise e0 ->
  forall acc, exists e, Transformer.transform_all records acc = Raise e.
Proof.
  induction records as [|r0 records IH]; intros Hin Hr acc; [contradiction|].
  cbn [Transformer.transform_all].
  destruct (Transformer.transform_product r0) as [[p|]|e1] eqn:E0; cbn [bind].
  - destruct Hin as [->|Hin]; [congruence | now apply IH].
  - destruct Hin as [->|Hin]; [congruence | now apply IH].
  - eauto.
Qed.

(** X18.  A record the transformer cannot read stops the whole run
    before it starts: when a record has a [list] or a [dict] for
    identifier, or a record that is kept has a text for price, the task
    raises, and it has asked nothing of the service and written nothing;
    and so it is whenever the load raises. *)
Theorem unreadable_record_aborts_task (s : settings) (w : world) :
  (forall e, Transformer.load_and_transform (ERP_DATA s) = Raise e ->
             sync_products_task s w = (Raise e, w)) /\
  (Exists (fun r => unhashable (dict_get_none "id" r)) (ERP_DATA s) ->
   sync_products_task s w = (Raise TypeError, w)) /\
  (forall records r text,
      Transformer.load_erp_data (ERP_DATA s) = Ok records -> In r records ->
      dict_get "price_vat_excl" r = Some (VStr text) ->
      exists e, sync_products_task s w = (Raise e, w)).
Proof.
  assert (Habort : forall e, Transformer.load_and_transform (ERP_DATA s) = Raise e ->
                             sync_products_task s w = (Raise e, w)).
  { intros e He. unfold sync_products_task, lift, bindM. now rewrite He. }
  split; [exact Habort|]. split.
  - intros Hex. apply Habort. unfold Transformer.load_and_transform.
    assert (Hl : Transformer.load_erp_data (ERP_DATA s) = Raise TypeError).
    { apply dedup_loop_raises_load. exact Hex. }
    now rewrite Hl.
  - intros records r text Hl Hin Hp.
    assert (Hr : Transformer.transform_product r = Raise TypeError).
    { unfold Transformer.transform_product, dict_get_none, dict_get_default.
      rewrite Hp. reflexivity. }
    destruct (transform_all_raises records r TypeError Hin Hr []) as [e He].
    exists e. apply Habort. unfold Transformer.load_and_transform. now rewrite Hl.
Qed.

Lemma unreadable_record_aborts_task_witness :
  sync_products_task
    (Settings "https://api.fake-eshop.cz/v1" "symma-secret-token"
              [espresso; [("id", VList [VInt 1]); ("price_vat_excl", VInt 1)]])
    (fresh_world [created])
  = (Raise TypeError, fresh_world [created]).
Proof.
  apply (proj1 (proj2 (unreadable_record_aborts_task
                         (Settings "https://api.fake-eshop.cz/v1" "symma-secret-token"
                                   [espresso;
                                    [("id", VList [VInt 1]); ("price_vat_excl", VInt 1)]])
                         (fresh_world [created])))).
  apply Exists_cons_tl. apply Exists_cons_hd. exact I.
Defined.

Lemma send_product_attempts (c : EshopClient.client) (product : pydict) (is_new : bool)
    (w : world) :
  exists result w',
    EshopClient.send_product c product is_new w = (result, w') /\
    (attempts (trace w') <= attempts (trace w) + 3)%nat.
Proof.
  unfold EshopClient.send_product, EshopClient.product_sku, bindM.
  destruct (dict_get "sku" product) as [sku|]; cbn [ret raise];
    [|exists (Raise KeyError), w; split; [reflexivity | lia]].
  destruct is_new.
  - destruct (retry_loop_trace c "POST" (EshopClient._base_url c ++ "/products/") product 3 1 w)
      as (res & w' & E & _ & Ha & _).
    exists res, w'. split; [exact E | exact Ha].
  - destruct (py_str sku) as [k|];
      [|exists (Raise TypeError), w; split; [reflexivity | lia]].
    destruct (retry_loop_trace c "PATCH"
                (EshopClient._base_url c ++ "/products/" ++ k ++ "/") product 3 1 w)
      as (res & w' & E & _ & Ha & _).
    exists res, w'. split; [exact E | exact Ha].
Qed.

Lemma try_sync_attempts (c : EshopClient.client) (sku : value) (product : pydict)
    (new_hash : string) (w w' : world) (result : res outcome) :
  try_sync c sku product new_hash w = (result, w') ->
  (attempts (trace w') <= attempts (trace w) + 3)%nat.
Proof.
  unfold try_sync, bindM.
  destruct (get_state_pure sku w) as [[state|e0] ->]; cbv beta iota;
    [|intros H; injection H as _ <-; lia].
  destruct (match state with Some st => _ | None => false end);
    [intros H; injection H as _ <-; lia|].
  destruct (send_product_attempts c product (match state with Some _ => false | None => true end) w)
    as ([r|e1] & w1 & -> & Ha); cbv beta iota;
    [|intros H; injection H as _ <-; assumption].
  unfold save_state.
  destruct sku as [|[|]| | | | |]; cbn [py_str]; cbv beta iota;
    intros H; injection H as _ <-; exact Ha.
Qed.

(** One product: at most three attempts, and none when it is skipped. *)
Lemma sync_one_attempts (c : EshopClient.client) (p : pydict) (n n' : summary)
    (w w' : world) :
  sync_one c p n w = (Ok n', w') ->
  sent n <= sent n' /\ errors n <= errors n' /\
  Z.of_nat (attempts (trace w')) - Z.of_nat (attempts (trace w))
  <= 3 * ((sent n' - sent n) + (errors n' - errors n)).
Proof.
  unfold sync_one, EshopClient.product_sku, bindM.
  destruct (dict_get "sku" p) as [sku|]; [|discriminate]. unfold ret.
  destruct (try_sync c sku p (Transformer.compute_hash p) w) as [result w1] eqn:E.
  pose proof (try_sync_attempts _ _ _ _ _ _ _ E) as Ha.
  destruct (try_sync_cases _ _ _ _ _ _ _ E)
    as [(-> & -> & _) | [(-> & _) | (e & -> & _)]];
    intros H; injection H as <- <-; cbn [sent errors]; lia.
Qed.

(** X19.  The network use of a run is bounded by its summary: the
    attempts the loop makes are at most three for every product it
    counts as sent or as failed; skipped products cost none. *)
Theorem attempts_bounded_by_summary (c : EshopClient.client) (products : list pydict) :
  forall n n' w w',
    sync_loop c products n w = (Ok n', w') ->
    Z.of_nat (attempts (trace w')) - Z.of_nat (attempts (trace w))
    <= 3 * ((sent n' - sent n) + (errors n' - errors n)).
Proof.
  induction products as [|p products IH]; intros n n' w w' H.
  - cbn in H. injection H as <- <-. lia.
  - cbn [sync_loop] in H. unfold bindM in H.
    destruct (sync_one c p n w) as [[n1|e1] w1] eqn:E1; [|discriminate H].
    pose proof (sync_one_attempts c p n n1 w w1 E1) as (Hs & He & H1).
    pose proof (IH _ _ _ _ H) as H2. lia.
Qed.

Lemma attempts_bounded_by_summary_witness :
  Z.of_nat (attempts
              (trace (snd (sync_loop shop two_products (Summary 0 0 0)
                             (fresh_world [server_error; created])))))
  - Z.of_nat (attempts (trace (fresh_world [server_error; created])))
  <= 3 * ((sent (Summary 1 0 1) - sent (Summary 0 0 0))
          + (errors (Summary 1 0 1) - errors (Summary 0 0 0))).
Proof.
  apply (attempts_bounded_by_summary shop two_products (Summary 0 0 0) (Summary 1 0 1)
                                     (fresh_world [server_error; created])).
  vm_compute. reflexivity.
Defined.

Lemma table_put_keeps (k k' : string) (st : ProductSyncState)
    (t : list (string * ProductSyncState)) :
  table_get k' t <> None -> table_get k' (table_put k st t) <> None.
Proof.
  intros H. destruct (String.eqb k' k) eqn:E.
  - apply String.eqb_eq in E. subst. now rewrite table_get_put_same.
  - apply String.eqb_neq in E. now rewrite table_get_put_other.
Qed.

Lemma compute_hash_length (p : pydict) :
  String.length (Transformer.compute_hash p) = 64%nat.
Proof.
  unfold Transformer.compute_hash. rewrite string_length_list. apply hexdigest_chars.
Qed.

Lemma table_put_fits (k : string) (st : ProductSyncState)
    (t : list (string * ProductSyncState)) :
  String.length (content_hash st) = 64%nat -> hashes_fit t ->
  hashes_fit (table_put k st t).
Proof.
  intros Hst Ht k' st' Hget. destruct (String.eqb k' k) eqn:E.
  - apply String.eqb_eq in E. subst. rewrite table_get_put_same in Hget. congruence.
  - apply String.eqb_neq in E. rewrite table_get_put_other in Hget by assumption. eauto.
Qed.

(** X20.  The task never deletes a row, and the hashes it stores fit the
    column: after the loop every sku that had a row still has one, and
    if every stored hash was 64 characters long, every stored hash still
    is. *)
Theorem table_only_grows (c : EshopClient.client) (products : list pydict) :
  forall n n' w w',
    sync_loop c products n w = (Ok n', w') ->
    (forall k, table_get k (db w) <> None -> table_get k (db w') <> None) /\
    (hashes_fit (db w) -> hashes_fit (db w')).
Proof.
  induction products as [|p products IH]; intros n n' w w' H.
  - cbn in H. injection H as _ <-. auto.
  - cbn [sync_loop] in H. unfold bindM in H.
    destruct (sync_one c p n w) as [[n1|e1] w1] eqn:E1; [|discriminate H].
    destruct (IH _ _ _ _ H) as [Hk Hf].
    assert (Hstep : (forall k, table_get k (db w) <> None -> table_get k (db w1) <> None) /\
                    (hashes_fit (db w) -> hashes_fit (db w1))).
    { unfold sync_one, EshopClient.product_sku, bindM in E1.
      destruct (dict_get "sku" p) as [sku|]; [|discriminate]. unfold ret in E1.
      destruct (try_sync c sku p (Transformer.compute_hash p) w) as [result w2] eqn:E.
      assert (w2 = w1) as -> by (destruct result as [[|]|]; now injection E1).
      destruct (try_sync_cases _ _ _ _ _ _ _ E)
        as [(_ & -> & _) | [(_ & k0 & st & _ & _ & Hh & ->) | (e & _ & ->)]]; auto.
      split.
      - intros k. apply table_put_keeps.
      - apply table_put_fits. rewrite Hh. apply compute_hash_length. }
    destruct Hstep as [Hk1 Hf1]. split; auto.
Qed.

Lemma table_only_grows_witness :
  (forall k, table_get k (db second_run_world) <> None ->
             table_get k (db (snd (sync_loop shop two_products (Summary 0 0 0)
                                     second_run_world))) <> None) /\
  (hashes_fit (db second_run_world) ->
   hashes_fit (db (snd (sync_loop shop two_products (Summary 0 0 0) second_run_world)))).
Proof.
  apply (table_only_grows shop two_products (Summary 0 0 0) (Summary 0 1 1)).
  vm_compute. reflexivity.
Defined.
End TaskMore.
